(** * Order / payment reconciliation flow of [server.js]

    A shallow embedding of the Express handlers [POST /api/create-order],
    [POST /api/request-payment], [POST /api/verify-payment],
    [GET /api/my-orders], of [authMiddleware] and of the final error
    middleware, followed by the properties of the flow.

    Modelling conventions.
    - JavaScript numbers are binary64: prices, quantities and amounts are
      values of the primitive type [float], whose operations are the IEEE 754
      ones the language uses (round to nearest even, NaN, signed zeros). The
      response code of the gateway is only compared with 100 and is an
      integer. The quantities of the client-side cart are counts and are
      integers here: the sums of the script agree with integer sums as long
      as they stay within 2^53.
    - The [orders] collection is a list of documents in insertion order; the
      position of a document is its internal identity, [findOne] returns the
      first match and [save] writes the document back at its position.
    - Reads of the collection succeed; a [save] may be rejected.
    - Everything outside the process (token verification, the gateway
      reached through [axios.post], the outcome of a [save], configuration
      read from [process.env]) is an explicit environment [Env].
    - A handler is a computation over the [World] (collection and effect
      trace) that either produces a response or throws; [serve] routes a
      thrown error to the error middleware, as [next(error)] does. *)

From Stdlib Require Import ZArith String List Lia Bool.
From Corelib Require Import PrimFloat FloatOps SpecFloat.
From stdpp Require Import base option list strings pretty.

Local Open Scope string_scope.

(** ** Data model *)

(** A JSON value of a request body. For text, and for objects and arrays,
    the value carries besides its content the number [n] that the language's
    ToNumber makes of it (NaN unless the text is a numeric literal): that
    conversion is not part of this development. *)
Inductive Json :=
| JNull
| JBool (b : bool)
| JNumber (x : float)
| JString (s : string) (n : float)
| JObject (payload : string) (n : float).

(** ToBoolean, what [!v] tests: null, false, 0, -0, NaN and the empty
    string are falsy. *)
Definition truthy (v : Json) : bool :=
  match v with
  | JNull => false
  | JBool b => b
  | JNumber x => negb (is_zero x || is_nan x)
  | JString EmptyString _ => false
  | JString (String _ _) _ => true
  | JObject _ _ => true
  end.

(** ToNumber, what an arithmetic operator makes of its operand. *)
Definition ToNumber (v : Json) : float :=
  match v with
  | JNull => 0%float
  | JBool true => 1%float
  | JBool false => 0%float
  | JNumber x => x
  | JString _ n => n
  | JObject _ n => n
  end.

(** One non-null element of [products], as the handler reads it: [price]
    and [quantity] are ToNumber of the members [item.price] and
    [item.quantity], the operands of the multiplication (NaN for a member
    that is missing or not numeric). *)
Record Item := {
  productRef : string;
  price : float;
  quantity : float
}.

(** [shippingInfo] is tested for truthiness and stored as received. *)
Definition ShippingInfo : Type := Json.

(** A shipping form: an object. *)
Definition Shipping (payload : string) : ShippingInfo := JObject payload nan.

(** The payment status strings written by [verify-payment]. *)
Definition PAID : string := "پرداخت شده".
Definition FAILED : string := "ناموفق".

(** Modelled from the spec: the schema default of [paymentStatus]
    ([orderModel.js] is not part of the sources); the spec names the
    initial status "unpaid". *)
Definition UNPAID : string := "unpaid".

Record Order := {
  orderId : string;
  user : option string;
  shippingInfo : ShippingInfo;
  products : list Item;
  subtotal : float;
  shippingCost : float;
  amount : float;
  paymentAuthority : option string;
  paymentStatus : string;
  paymentRefId : option string
}.

(** Field assignments of the handlers ([order.paymentAuthority = ...],
    [order.paymentStatus = ...], [order.paymentRefId = ...]). *)
Definition set_paymentAuthority (a : string) (o : Order) : Order :=
  {| orderId := orderId o; user := user o; shippingInfo := shippingInfo o;
     products := products o; subtotal := subtotal o;
     shippingCost := shippingCost o; amount := amount o;
     paymentAuthority := Some a;
     paymentStatus := paymentStatus o; paymentRefId := paymentRefId o |}.

Definition set_paymentStatus (s : string) (o : Order) : Order :=
  {| orderId := orderId o; user := user o; shippingInfo := shippingInfo o;
     products := products o; subtotal := subtotal o;
     shippingCost := shippingCost o; amount := amount o;
     paymentAuthority := paymentAuthority o;
     paymentStatus := s; paymentRefId := paymentRefId o |}.

Definition set_paymentRefId (r : string) (o : Order) : Order :=
  {| orderId := orderId o; user := user o; shippingInfo := shippingInfo o;
     products := products o; subtotal := subtotal o;
     shippingCost := shippingCost o; amount := amount o;
     paymentAuthority := paymentAuthority o;
     paymentStatus := paymentStatus o; paymentRefId := Some r |}.

(** A thrown JavaScript [Error]. *)
Record JsError := {
  err_message : string;
  err_stack : string
}.

(** The decoded token: [jwt.sign({ _id, username }, ...)] in [/api/login]. *)
Record JwtPayload := {
  jwt_id : string;
  jwt_username : string
}.

(** ** The gateway *)

(** [zarinpalResp.data]: the reply body, whose [data] member carries the
    code, the authority (request) and the reference id (verify). *)
Record ZarinpalData := {
  code : Z;
  authority : string;
  ref_id : string
}.

Record ZarinpalBody := {
  data : ZarinpalData;
  errors : string
}.

Definition ZARINPAL_API_REQUEST : string :=
  "https://api.zarinpal.com/pg/v4/payment/request.json".
Definition ZARINPAL_API_VERIFY : string :=
  "https://api.zarinpal.com/pg/v4/payment/verify.json".
Definition ZARINPAL_GATEWAY_URL : string :=
  "https://www.zarinpal.com/pg/StartPay/".

(** The object posted to the gateway. *)
Inductive Payload :=
| RequestPayload (merchant_id : option string) (amount : float)
    (description callback_url : string)
| VerifyPayload (merchant_id : option string) (amount : float)
    (authority : string).

Definition payload_amount (p : Payload) : float :=
  match p with
  | RequestPayload _ a _ _ => a
  | VerifyPayload _ a _ => a
  end.

(** Outcome of an awaited promise: fulfilled, or rejected with an error. *)
Inductive Result (A : Type) :=
| Ok (a : A)
| Throw (e : JsError).
Arguments Ok {A} a.
Arguments Throw {A} e.

(** ** Environment *)

Record Env := {
  (** [jwt.verify(token, process.env.JWT_SECRET)]; [None] when it throws. *)
  jwt_verify : string -> option JwtPayload;
  (** [axios.post(url, payload)]: the reply body, or a transport error
      (network failure, non-2xx status). *)
  axios_post : string -> Payload -> Result ZarinpalBody;
  (** [document.save()]: [None] when the write is accepted, [Some e] when
      schema validation or the store rejects it. *)
  persist : Order -> option JsError;
  (** Schema default of the external identifier of the n-th document. *)
  gen_orderId : nat -> string;
  ZARINPAL_MERCHANT_ID : option string;
  ZARINPAL_CALLBACK_URL : option string
}.

(** ** World: the collection and the trace of observable effects *)

Inductive Event :=
| EvPost (url : string) (p : Payload)
| EvSave (i : nat) (o : Order)
| EvWarn (msg : string)
| EvError (msg : string) (stack : string).

Record World := {
  db : list Order;
  trace : list Event
}.

Definition emit (ev : Event) (w : World) : World :=
  {| db := db w; trace := trace w ++ [ev] |}.

(** ** Handler computations *)

Definition M (A : Type) : Type := World -> Result A * World.

Definition ret {A} (a : A) : M A := fun w => (Ok a, w).
Definition throw {A} (e : JsError) : M A := fun w => (Throw e, w).
Definition bind {A B} (m : M A) (k : A -> M B) : M B :=
  fun w => match m w with
           | (Ok a, w') => k a w'
           | (Throw e, w') => (Throw e, w')
           end.

Notation "'let!' x ':=' m 'in' k" := (bind m (fun x => k))
  (at level 10, x name, m at level 100, k at level 200).
Notation "'do!' m 'in' k" := (bind m (fun _ => k))
  (at level 10, m at level 100, k at level 200).

Definition log (ev : Event) : M unit := fun w => (Ok tt, emit ev w).

(** *** The collection *)

(** [Order.findOne(filter)]: the first document matching the filter, with
    its position. *)
Definition findOne (P : Order -> Prop) `{forall o, Decision (P o)}
  : M (option (nat * Order)) :=
  fun w => (Ok (list_find P (db w)), w).

(** [order.save()] on a document obtained from the collection. *)
Definition save_at (env : Env) (i : nat) (o : Order) : M unit :=
  fun w => match persist env o with
           | Some e => (Throw e, w)
           | None => (Ok tt, {| db := <[i:=o]> (db w);
                                trace := trace w ++ [EvSave i o] |})
           end.

(** [newOrder.save()] on a document built with [new Order(...)]. *)
Definition save_new (env : Env) (o : Order) : M unit :=
  fun w => match persist env o with
           | Some e => (Throw e, w)
           | None => (Ok tt, {| db := db w ++ [o];
                                trace := trace w ++ [EvSave (length (db w)) o] |})
           end.

(** [axios.post(url, payload)]. *)
Definition post (env : Env) (url : string) (p : Payload) : M ZarinpalBody :=
  fun w => (axios_post env url p, emit (EvPost url p) w).

(** ** Responses *)

Inductive ResBody :=
| Message (message : string)
| OrderCreated (message : string) (order : Order)
| PaymentUrl (payment_url : string)
| GatewayError (message : string) (detail : ZarinpalBody)
| VerifyOk (success : bool) (message : string) (order : Order)
| VerifyFail (success : bool) (message : string) (detail : ZarinpalBody)
    (order : Order)
| OrderList (orders : list Order)
| ServerError (message : string) (error : string).

Record Response := {
  status : nat;
  body : ResBody
}.

(** [res.status(s).json(b)]; [res.json(b)] is [json 200 b]. *)
Definition json (s : nat) (b : ResBody) : Response :=
  {| status := s; body := b |}.

(** ** JavaScript helpers *)

(** [s.replace(pat, rep)] with a string pattern: the first occurrence. *)
Fixpoint replace_first (pat rep s : string) : string :=
  if String.prefix pat s
  then rep +:+ String.substring (String.length pat)
                 (String.length s - String.length pat) s
  else match s with
       | EmptyString => EmptyString
       | String c s' => String c (replace_first pat rep s')
       end.

Arguments replace_first : simpl never.

(** Truthiness of a possibly absent string (a header, an environment
    variable): absent and empty are falsy. *)
Definition truthy_str (v : option string) : bool :=
  match v with
  | Some (String _ _) => true
  | _ => false
  end.

(** [v || d] on strings. *)
Definition or_else (v : option string) (d : string) : string :=
  match v with
  | Some (String c s) => String c s
  | _ => d
  end.

(** ** [authMiddleware] *)

Definition authMiddleware (env : Env) (authHeader : option string)
    (next : JwtPayload -> M Response) : M Response :=
  match authHeader with
  | Some (String c h) =>
      let token := replace_first "Bearer " "" (String c h) in
      match jwt_verify env token with
      | Some decoded => next decoded
      | None => ret (json 400 (Message "توکن نامعتبر است."))
      end
  | _ => ret (json 401 (Message "دسترسی مجاز نیست. توکن ارائه نشده است."))
  end.

(** ** [GET /api/my-orders] *)

(** [Order.find({ user: id }).sort({ createdAt: -1 })]: newest first. *)
Definition find_by_user (uid : string) (l : list Order) : list Order :=
  rev (filter (fun o => user o = Some uid) l).

Definition my_orders (env : Env) (authHeader : option string) : M Response :=
  authMiddleware env authHeader (fun decoded =>
    fun w => (Ok (json 200 (OrderList (find_by_user (jwt_id decoded) (db w)))), w)).

(** ** [POST /api/create-order] *)

(** The [products] member of the body: absent or falsy; a truthy value
    that is no array; or an array, each element being null ([None]) or
    anything else, read as an [Item]. *)
Inductive ProductsField :=
| ProductsMissing
| ProductsNotArray
| ProductsArray (elems : list (option Item)).

(** [req.body] of create-order; [None] is an absent member. *)
Record CreateOrderBody := {
  co_shippingInfo : option Json;
  co_products : ProductsField;
  co_amount : option Json
}.

(** [!v] for a member that may be absent. *)
Definition falsy (v : option Json) : bool :=
  match v with
  | Some x => negb (truthy x)
  | None => true
  end.

(** The TypeError of [item.price] on a null element. *)
Definition TYPE_ERROR : JsError :=
  {| err_message := "Cannot read properties of null (reading 'price')";
     err_stack := "TypeError: Cannot read properties of null (reading 'price')" |}.

(** [products.reduce((sum, item) => sum + (item.price * item.quantity), 0)]:
    the elements are visited from the left, starting from [sum]; reading a
    member of a null element throws. *)
Fixpoint reduce_subtotal (elems : list (option Item)) (sum : float)
  : Result float :=
  match elems with
  | [] => Ok sum
  | None :: _ => Throw TYPE_ERROR
  | Some item :: rest =>
      reduce_subtotal rest (sum + price item * quantity item)%float
  end.

(** The same reduce on an array without null elements. *)
Definition calc_subtotal (items : list Item) : float :=
  fold_left (fun sum item => sum + price item * quantity item)%float
    items 0%float.

Definition SHIPPING_COST : float := 50000.

(** [subtotal + shippingCost] *)
Definition calc_finalAmount (items : list Item) : float :=
  (calc_subtotal items + SHIPPING_COST)%float.

(** [Math.abs(finalAmount - amount) > 1] *)
Definition exceeds_tolerance (finalAmount : float) (amt : Json) : bool :=
  (1 <? abs (finalAmount - ToNumber amt))%float.

(** The elements of an array, the null ones left out. *)
Definition present (elems : list (option Item)) : list Item :=
  omap id elems.

(** An awaited or computed result inside a handler. *)
Definition settle {A} (r : Result A) : M A := fun w => (r, w).

(** The optional identity of create-order: a missing header gives [null];
    a header that does not verify is logged and gives [null] too. *)
Definition optional_user (env : Env) (authHeader : option string)
  : M (option string) :=
  match authHeader with
  | Some (String c h) =>
      let token := replace_first "Bearer " "" (String c h) in
      match jwt_verify env token with
      | Some decoded => ret (Some (jwt_id decoded))
      | None => do! log (EvWarn "توکن نامعتبر در هنگام ایجاد سفارش.") in
                ret None
      end
  | _ => ret None
  end.

Definition MSG_INCOMPLETE : string := "اطلاعات ارسالی برای ثبت سفارش ناقص است.".
Definition MSG_MISMATCH : string := "مبلغ نهایی با سبد خرید مغایرت دارد.".
Definition MSG_CREATED : string := "سفارش با موفقیت ایجاد شد".

(** [new Order({ user, shippingInfo, products, subtotal, shippingCost,
    amount })]: the remaining members take their schema defaults. *)
Definition new_Order (env : Env) (n : nat) (userId : option string)
    (si : ShippingInfo) (items : list Item) (sub ship amt : float) : Order :=
  {| orderId := gen_orderId env n; user := userId; shippingInfo := si;
     products := items; subtotal := sub; shippingCost := ship;
     amount := amt; paymentAuthority := None; paymentStatus := UNPAID;
     paymentRefId := None |}.

Definition create_order (env : Env) (authHeader : option string)
    (req : CreateOrderBody) : M Response :=
  match co_products req with
  | ProductsArray (elem :: rest) =>
      if falsy (co_shippingInfo req) || falsy (co_amount req)
      then ret (json 400 (Message MSG_INCOMPLETE))
      else
        let elems := elem :: rest in
        let si := default JNull (co_shippingInfo req) in
        let amt := default JNull (co_amount req) in
        let! userId := optional_user env authHeader in
        let! sub := settle (reduce_subtotal elems 0%float) in
        let ship := SHIPPING_COST in
        let finalAmount := (sub + ship)%float in
        if exceeds_tolerance finalAmount amt
        then ret (json 400 (Message MSG_MISMATCH))
        else
          fun w =>
            let newOrder :=
              new_Order env (length (db w)) userId si (present elems)
                sub ship finalAmount in
            (do! save_new env newOrder in
             ret (json 201 (OrderCreated MSG_CREATED newOrder))) w
  | _ => ret (json 400 (Message MSG_INCOMPLETE))
  end.

(** ** [POST /api/request-payment] *)

(** The filter [{ orderId: orderId }]. *)
Definition by_orderId (oid : string) (o : Order) : Prop :=
  orderId o = oid.

#[global] Instance by_orderId_dec oid o : Decision (by_orderId oid o).
Proof. unfold by_orderId. apply _. Defined.

Definition request_payment (env : Env) (host : string) (oid : string)
  : M Response :=
  let! found := findOne (by_orderId oid) in
  match found with
  | None => ret (json 404 (Message "سفارش یافت نشد."))
  | Some (i, order) =>
      let callback_url :=
        or_else (ZARINPAL_CALLBACK_URL env)
                ("http://" +:+ host +:+ "/payment-verify.html") in
      let callbackWithOrderId := callback_url +:+ "?orderId=" +:+ orderId order in
      let! zarinpalResp :=
        post env ZARINPAL_API_REQUEST
          (RequestPayload (ZARINPAL_MERCHANT_ID env) (amount order)
             ("سفارش " +:+ oid) callbackWithOrderId) in
      if (code (data zarinpalResp) =? 100)%Z then
        let order' := set_paymentAuthority (authority (data zarinpalResp)) order in
        do! save_at env i order' in
        ret (json 200
               (PaymentUrl (ZARINPAL_GATEWAY_URL
                            +:+ default "" (paymentAuthority order'))))
      else
        ret (json 500 (GatewayError "خطا در اتصال به درگاه پرداخت" zarinpalResp))
  end.

(** ** [POST /api/verify-payment] *)

(** The filter [{ orderId: orderId, paymentAuthority: authority }]. *)
Definition by_orderId_authority (oid auth : string) (o : Order) : Prop :=
  orderId o = oid /\ paymentAuthority o = Some auth.

#[global] Instance by_orderId_authority_dec oid auth o :
  Decision (by_orderId_authority oid auth o).
Proof. unfold by_orderId_authority. apply _. Defined.

Definition verify_payment (env : Env) (auth : string) (oid : string)
  : M Response :=
  let! found := findOne (by_orderId_authority oid auth) in
  match found with
  | None => ret (json 404 (Message "تراکنش یافت نشد."))
  | Some (i, order) =>
      let! zarinpalVerifyResp :=
        post env ZARINPAL_API_VERIFY
          (VerifyPayload (ZARINPAL_MERCHANT_ID env) (amount order) auth) in
      if (code (data zarinpalVerifyResp) =? 100)%Z then
        let order' :=
          set_paymentRefId (ref_id (data zarinpalVerifyResp))
            (set_paymentStatus PAID order) in
        do! save_at env i order' in
        ret (json 200 (VerifyOk true "پرداخت شما با موفقیت تایید شد." order'))
      else
        let order' := set_paymentStatus FAILED order in
        do! save_at env i order' in
        ret (json 400 (VerifyFail false "پرداخت ناموفق بود"
                         zarinpalVerifyResp order'))
  end.

(** ** The error middleware and the dispatch of thrown errors *)

Definition MSG_SERVER_ERROR : string := "یک خطای پیش‌بینی نشده در سرور رخ داد.".

Definition errorHandler (err : JsError) (w : World) : Response * World :=
  (json 500 (ServerError MSG_SERVER_ERROR (err_message err)),
   emit (EvError "❌ خطای داخلی سرور:" (err_stack err)) w).

(** [try { ... } catch (error) { next(error) }] around a handler body. *)
Definition serve (h : M Response) (w : World) : Response * World :=
  match h w with
  | (Ok r, w') => (r, w')
  | (Throw e, w') => errorHandler e w'
  end.

(** ** Sample environments and worlds *)

Module Sample.

Definition reply (c : Z) : ZarinpalBody :=
  {| data := {| code := c; authority := "A1"; ref_id := "R9" |};
     errors := "" |}.

(** A gateway that answers every call with code [c], a store that accepts
    every write, and one valid token. *)
Definition env_code (c : Z) : Env :=
  {| jwt_verify := fun t =>
       if String.eqb t "good"
       then Some {| jwt_id := "u1"; jwt_username := "sara" |}
       else None;
     axios_post := fun _ _ => Ok (reply c);
     persist := fun _ => None;
     gen_orderId := fun n => "ORD-" +:+ pretty n;
     ZARINPAL_MERCHANT_ID := Some "merchant";
     ZARINPAL_CALLBACK_URL := None |}.

Definition ECONNREFUSED : JsError :=
  {| err_message := "connect ECONNREFUSED 10.0.0.5:443";
     err_stack := "Error: connect ECONNREFUSED 10.0.0.5:443 at TCPConnectWrap.afterConnect" |}.

(** The gateway is unreachable. *)
Definition env_down : Env :=
  {| jwt_verify := jwt_verify (env_code 100);
     axios_post := fun _ _ => Throw ECONNREFUSED;
     persist := fun _ => None;
     gen_orderId := gen_orderId (env_code 100);
     ZARINPAL_MERCHANT_ID := Some "merchant";
     ZARINPAL_CALLBACK_URL := None |}.

Definition item (p q : float) : Item :=
  {| productRef := "p"; price := p; quantity := q |}.

(** A body with a shipping form, an array without null elements and a
    number as declared amount. *)
Definition body (items : list Item) (amt : float) : CreateOrderBody :=
  {| co_shippingInfo := Some (Shipping "Tehran");
     co_products := ProductsArray (Some <$> items);
     co_amount := Some (JNumber amt) |}.

Definition empty : World := {| db := []; trace := [] |}.

(** An order of 250000, as stored by create-order, with a given
    authority and status. *)
Definition order (auth : option string) (st : string) (r : option string)
  : Order :=
  {| orderId := "ORD-0"; user := None; shippingInfo := Shipping "Tehran";
     products := [item 100000 2]; subtotal := 200000;
     shippingCost := 50000; amount := 250000;
     paymentAuthority := auth; paymentStatus := st; paymentRefId := r |}.

Definition world_of (o : Order) : World := {| db := [o]; trace := [] |}.

End Sample.

(** ** Predicates of the specification *)

(** The integer a number is, when it is one. *)
Definition float_to_Z (x : float) : option Z :=
  match Prim2SF x with
  | S754_zero _ => Some 0%Z
  | S754_finite s m e =>
      let magnitude :=
        if (0 <=? e)%Z then Some (Z.shiftl (Zpos m) e)
        else if (Z.land (Zpos m) (Z.ones (- e)) =? 0)%Z
             then Some (Z.shiftr (Zpos m) (- e))
             else None in
      (fun n => if s then (- n)%Z else n) <$> magnitude
  | _ => None
  end.

(** [Σ price × quantity] over line items with integer prices and
    quantities, in exact arithmetic. *)
Fixpoint sum_price_quantity (items : list Item) : option Z :=
  match items with
  | [] => Some 0%Z
  | it :: rest =>
      p ← float_to_Z (price it);
      q ← float_to_Z (quantity it);
      total ← sum_price_quantity rest;
      Some (p * q + total)%Z
  end.

(** The binary64 product, or sum, of two integers is their exact product,
    or sum. *)
Definition exact_mul (x y : float) : bool :=
  match float_to_Z x, float_to_Z y, float_to_Z (x * y)%float with
  | Some a, Some b, Some c => (c =? a * b)%Z
  | _, _, _ => false
  end.

Definition exact_add (x y : float) : bool :=
  match float_to_Z x, float_to_Z y, float_to_Z (x + y)%float with
  | Some a, Some b, Some c => (c =? a + b)%Z
  | _, _, _ => false
  end.

(** No step of the reduce, started from [sum], rounds. *)
Fixpoint exact_steps (sum : float) (items : list Item) : bool :=
  match items with
  | [] => true
  | it :: rest =>
      exact_mul (price it) (quantity it)
      && exact_add sum (price it * quantity it)%float
      && exact_steps (sum + price it * quantity it)%float rest
  end.

(** The line-item sequence is missing, not a sequence, or empty. *)
Definition no_line_items (p : ProductsField) : Prop :=
  match p with
  | ProductsArray (_ :: _) => False
  | _ => True
  end.


(** Incomplete input as the handler tests it: a member is missing or
    falsy. *)
Definition incomplete_or_falsy (req : CreateOrderBody) : Prop :=
  falsy (co_shippingInfo req) = true \/ no_line_items (co_products req)
  \/ falsy (co_amount req) = true.

(** The recomputed final amount is further than 1 from the declared one,
    as the handler compares them. *)
Definition amount_mismatch (req : CreateOrderBody) : Prop :=
  exists items amt,
    co_products req = ProductsArray (Some <$> items)
    /\ co_amount req = Some amt
    /\ exceeds_tolerance (calc_finalAmount items) amt = true.


(** The store accepts every write. *)
Definition store_accepts (env : Env) : Prop :=
  forall o, persist env o = None.

(** No gateway call among the events. *)
Definition no_post (evs : list Event) : Prop :=
  forall url p, ~ In (EvPost url p) evs.

(** No credential, or one that does not verify. *)
Definition no_valid_credential (env : Env) (authHeader : option string)
  : Prop :=
  truthy_str authHeader = false \/
  exists h, authHeader = Some h /\
            jwt_verify env (replace_first "Bearer " "" h) = None.

(** ** Outcomes of create-order *)

(** The first [if] of the handler is passed and no element is null:
    shipping info and declared amount are truthy, the array is not empty. *)
Record complete_input (req : CreateOrderBody) (si : ShippingInfo)
    (items : list Item) (amt : Json) : Prop := {
  ci_shipping : co_shippingInfo req = Some si;
  ci_shipping_truthy : truthy si = true;
  ci_products : co_products req = ProductsArray (Some <$> items);
  ci_nonempty : items <> [];
  ci_amount : co_amount req = Some amt;
  ci_truthy : truthy amt = true
}.

(** The five ways a create-order request ends. *)
Inductive create_outcome (env : Env) (authHeader : option string)
    (req : CreateOrderBody) (w : World) : Response * World -> Prop :=
| CreateIncomplete :
    incomplete_or_falsy req ->
    create_outcome env authHeader req w
      (json 400 (Message MSG_INCOMPLETE), w)
| CreateTypeError si elems amt u evs :
    co_shippingInfo req = Some si -> truthy si = true ->
    co_products req = ProductsArray elems -> None ∈ elems ->
    co_amount req = Some amt -> truthy amt = true ->
    optional_user env authHeader w
      = (Ok u, {| db := db w; trace := trace w ++ evs |}) ->
    create_outcome env authHeader req w
      (errorHandler TYPE_ERROR {| db := db w; trace := trace w ++ evs |})
| CreateMismatch si items amt u evs :
    complete_input req si items amt ->
    optional_user env authHeader w
      = (Ok u, {| db := db w; trace := trace w ++ evs |}) ->
    exceeds_tolerance (calc_finalAmount items) amt = true ->
    create_outcome env authHeader req w
      (json 400 (Message MSG_MISMATCH),
       {| db := db w; trace := trace w ++ evs |})
| CreateStored si items amt u evs o :
    complete_input req si items amt ->
    optional_user env authHeader w
      = (Ok u, {| db := db w; trace := trace w ++ evs |}) ->
    exceeds_tolerance (calc_finalAmount items) amt = false ->
    o = new_Order env (length (db w)) u si items (calc_subtotal items)
          SHIPPING_COST (calc_finalAmount items) ->
    persist env o = None ->
    create_outcome env authHeader req w
      (json 201 (OrderCreated MSG_CREATED o),
       {| db := db w ++ [o];
          trace := (trace w ++ evs) ++ [EvSave (length (db w)) o] |})
| CreateThrown si items amt u evs o e :
    complete_input req si items amt ->
    optional_user env authHeader w
      = (Ok u, {| db := db w; trace := trace w ++ evs |}) ->
    exceeds_tolerance (calc_finalAmount items) amt = false ->
    o = new_Order env (length (db w)) u si items (calc_subtotal items)
          SHIPPING_COST (calc_finalAmount items) ->
    persist env o = Some e ->
    create_outcome env authHeader req w
      (errorHandler e {| db := db w; trace := trace w ++ evs |}).

(** ** What is posted to the gateway *)

(** The object request-payment posts for the order it found. *)
Definition request_payload (env : Env) (host oid : string) (o : Order)
  : Payload :=
  RequestPayload (ZARINPAL_MERCHANT_ID env) (amount o) ("سفارش " +:+ oid)
    (or_else (ZARINPAL_CALLBACK_URL env)
       ("http://" +:+ host +:+ "/payment-verify.html")
     +:+ "?orderId=" +:+ orderId o).

(** The object verify-payment posts for the order it found. *)
Definition verify_payload (env : Env) (auth : string) (o : Order) : Payload :=
  VerifyPayload (ZARINPAL_MERCHANT_ID env) (amount o) auth.

(** The order as verify-payment writes it after a reply with code [c]. *)
Definition finalized (z : ZarinpalBody) (o : Order) : Order :=
  if (code (data z) =? 100)%Z
  then set_paymentRefId (ref_id (data z)) (set_paymentStatus PAID o)
  else set_paymentStatus FAILED o.

(** ** Start-up checks *)

(** The variables of [process.env] read while the module loads. *)
Record ProcessEnv := {
  NODE_ENV : option string;
  JWT_SECRET : option string;
  ENV_MERCHANT_ID : option string;
  ENV_CALLBACK_URL : option string
}.

(** [process.env.NODE_ENV === 'production'] *)
Definition isProduction (pe : ProcessEnv) : bool :=
  match NODE_ENV pe with
  | Some v => String.eqb v "production"
  | None => false
  end.

(** The two guards before the routes are declared: [false] when one of
    them calls [process.exit(1)], [true] when the server goes on to
    listen. *)
Definition startup_ok (pe : ProcessEnv) : bool :=
  if negb (truthy_str (JWT_SECRET pe)) then false
  else if isProduction pe
          && (negb (truthy_str (ENV_MERCHANT_ID pe))
              || negb (truthy_str (ENV_CALLBACK_URL pe)))
       then false
       else true.

(** The handlers read the gateway settings of this process. *)
Definition configured_by (pe : ProcessEnv) (env : Env) : Prop :=
  ZARINPAL_MERCHANT_ID env = ENV_MERCHANT_ID pe
  /\ ZARINPAL_CALLBACK_URL env = ENV_CALLBACK_URL pe.

(** ** Registration and login *)

Module Auth.

(** A document of the [users] collection, as the handlers use it. *)
Record User := {
  user_id : string;
  username : string;
  email : string;
  password : string
}.

(** [req.body] of register. *)
Record RegisterBody := {
  rb_username : string;
  rb_email : string;
  rb_password : string
}.

(** What the handlers call outside the process. *)
Record AuthEnv := {
  (** [registerValidationSchema.validate(req.body)]: [None] when there is
      no error, else [error.details[0].message]. *)
  joi_validate : RegisterBody -> option string;
  (** [bcrypt.hash(password, 10)] *)
  bcrypt_hash : string -> string;
  (** [bcrypt.compare(password, hash)] *)
  bcrypt_compare : string -> string -> bool;
  (** [jwt.sign(payload, process.env.JWT_SECRET, { expiresIn: '24h' })] *)
  jwt_sign : JwtPayload -> string;
  (** [user.save()]: [None] when accepted. *)
  persist_user : User -> option JsError;
  (** The identifier given to the n-th document. *)
  gen_userId : nat -> string
}.

Inductive AuthBody :=
| AuthMessage (message : string)
| AuthError (error : string)
| LoginOk (message token : string) (id name mail : string).

Record AuthResponse := {
  auth_status : nat;
  auth_body : AuthBody
}.

(** The filter [{ $or: [{ email: e }, { username: n }] }]. *)
Definition email_or_username (e n : string) (u : User) : Prop :=
  email u = e \/ username u = n.

#[global] Instance email_or_username_dec e n u :
  Decision (email_or_username e n u).
Proof. unfold email_or_username. apply _. Defined.

Definition MSG_TAKEN : string := "نام کاربری یا ایمیل قبلا ثبت شده است".
Definition MSG_REGISTERED : string := "کاربر با موفقیت ایجاد شد".
Definition MSG_NO_USER : string := "کاربر پیدا نشد".
Definition MSG_BAD_PASSWORD : string := "رمز عبور اشتباه است".
Definition MSG_LOGGED_IN : string := "ورود موفقیت‌آمیز بود ✅".

(** [POST /api/register]: the answer (or the error passed to [next]) and
    the collection afterwards. *)
Definition register (aenv : AuthEnv) (req : RegisterBody) (users : list User)
  : Result AuthResponse * list User :=
  match joi_validate aenv req with
  | Some msg =>
      (Ok {| auth_status := 400; auth_body := AuthMessage msg |}, users)
  | None =>
      match list_find (email_or_username (rb_email req) (rb_username req))
              users with
      | Some _ =>
          (Ok {| auth_status := 400; auth_body := AuthMessage MSG_TAKEN |},
           users)
      | None =>
          let hashedPassword := bcrypt_hash aenv (rb_password req) in
          let user := {| user_id := gen_userId aenv (length users);
                         username := rb_username req;
                         email := rb_email req;
                         password := hashedPassword |} in
          match persist_user aenv user with
          | Some e => (Throw e, users)
          | None =>
              (Ok {| auth_status := 201;
                     auth_body := AuthMessage MSG_REGISTERED |},
               (users ++ [user])%list)
          end
      end
  end.

(** [POST /api/login]; the collection is only read. *)
Definition login (aenv : AuthEnv) (emailOrUsername pw : string)
    (users : list User) : AuthResponse :=
  match list_find (email_or_username emailOrUsername emailOrUsername)
          users with
  | None => {| auth_status := 404; auth_body := AuthError MSG_NO_USER |}
  | Some (_, user) =>
      if bcrypt_compare aenv pw (password user) then
        let token := jwt_sign aenv {| jwt_id := user_id user;
                                      jwt_username := username user |} in
        {| auth_status := 200;
           auth_body := LoginOk MSG_LOGGED_IN token
                          (user_id user) (username user) (email user) |}
      else {| auth_status := 400; auth_body := AuthError MSG_BAD_PASSWORD |}
  end.


End Auth.

(** ** The shopping cart of the client script *)

Module Cart.

(** A product as passed to [cart.add]: its [id] and the rest of the
    object, which the cart copies and never reads. *)
Record Product := {
  prod_id : string;
  prod_rest : string
}.

(** An element of the stored cart: [{ ...product, quantity }], the quantity
    being an integer count. *)
Record CartItem := {
  cart_product : Product;
  cart_quantity : Z
}.

(** The value under the key [shoppingCart] of [localStorage], parsed;
    [None] when the key is absent. *)
Definition Storage := option (list CartItem).

(** [JSON.parse(localStorage.getItem('shoppingCart')) || []] *)
Definition get (ls : Storage) : list CartItem := default [] ls.

(** The filter [item => item.id === product.id]. *)
Definition same_id (product : Product) (item : CartItem) : Prop :=
  prod_id (cart_product item) = prod_id product.

#[global] Instance same_id_dec product item : Decision (same_id product item).
Proof. unfold same_id. apply _. Defined.

(** [existingProduct.quantity += quantity] *)
Definition add_quantity (q : Z) (item : CartItem) : CartItem :=
  {| cart_product := cart_product item;
     cart_quantity := (cart_quantity item + q)%Z |}.

(** [cart.add(product, quantity)]: the storage after [save]. *)
Definition add (product : Product) (q : Z) (ls : Storage) : Storage :=
  let currentCart := get ls in
  match list_find (same_id product) currentCart with
  | Some (i, existingProduct) =>
      Some (<[i:=add_quantity q existingProduct]> currentCart)
  | None =>
      Some (currentCart ++ [{| cart_product := product;
                               cart_quantity := q |}])%list
  end.

(** [this.get().reduce((sum, item) => sum + item.quantity, 0)] *)
Definition totalItems (ls : Storage) : Z :=
  fold_left (fun sum item => sum + cart_quantity item)%Z (get ls) 0%Z.

(** The badge after [updateCounter]: its text and its [display] style. *)
Record Counter := {
  textContent : Z;
  display : string
}.

Definition updateCounter (ls : Storage) : Counter :=
  {| textContent := totalItems ls;
     display := if (totalItems ls >? 0)%Z then "flex" else "none" |}.


(** No two elements of the cart share an identifier. *)
Definition unique_ids (c : list CartItem) : Prop :=
  NoDup ((fun item => prod_id (cart_product item)) <$> c).

End Cart.

(** ** Invariants and frames of the order flow *)

(** The figures of an order are the ones create-order computes from its
    line items, in the arithmetic of the language. *)
Definition consistent (o : Order) : Prop :=
  subtotal o = calc_subtotal (products o)
  /\ shippingCost o = 50000%float
  /\ amount o = (subtotal o + shippingCost o)%float.

(** [o'] is [o] except, possibly, for its authority. *)
Definition same_but_authority (o o' : Order) : Prop :=
  orderId o' = orderId o /\ user o' = user o
  /\ shippingInfo o' = shippingInfo o /\ products o' = products o
  /\ subtotal o' = subtotal o /\ shippingCost o' = shippingCost o
  /\ amount o' = amount o /\ paymentStatus o' = paymentStatus o
  /\ paymentRefId o' = paymentRefId o.

(** [o'] is [o] except, possibly, for its status and reference id. *)
Definition same_but_outcome (o o' : Order) : Prop :=
  orderId o' = orderId o /\ user o' = user o
  /\ shippingInfo o' = shippingInfo o /\ products o' = products o
  /\ subtotal o' = subtotal o /\ shippingCost o' = shippingCost o
  /\ amount o' = amount o /\ paymentAuthority o' = paymentAuthority o.

(** ** Further sample data *)

Module Demo.

(** A store that refuses every write. *)
Definition QUOTA : JsError :=
  {| err_message := "you are over your space quota";
     err_stack := "MongoServerError: you are over your space quota" |}.

Definition env_readonly : Env :=
  {| jwt_verify := jwt_verify (Sample.env_code 100);
     axios_post := fun _ _ => Ok (Sample.reply 100);
     persist := fun _ => Some QUOTA;
     gen_orderId := gen_orderId (Sample.env_code 100);
     ZARINPAL_MERCHANT_ID := Some "merchant";
     ZARINPAL_CALLBACK_URL := None |}.

(** A production process with every variable set, and its handlers. *)
Definition production : ProcessEnv :=
  {| NODE_ENV := Some "production"; JWT_SECRET := Some "s3cret";
     ENV_MERCHANT_ID := Some "merchant";
     ENV_CALLBACK_URL := Some "https://shop.example/payment-verify.html" |}.

Definition env_production : Env :=
  {| jwt_verify := jwt_verify (Sample.env_code 100);
     axios_post := fun _ _ => Ok (Sample.reply 100);
     persist := fun _ => None;
     gen_orderId := gen_orderId (Sample.env_code 100);
     ZARINPAL_MERCHANT_ID := Some "merchant";
     ZARINPAL_CALLBACK_URL := Some "https://shop.example/payment-verify.html" |}.

(** Tokens are the user identifier behind a fixed prefix; hashes are the
    password behind a fixed prefix. *)
Definition aenv : Auth.AuthEnv :=
  {| Auth.joi_validate := fun _ => None;
     Auth.bcrypt_hash := fun pw => "$2a$10$" +:+ pw;
     Auth.bcrypt_compare := fun pw h => String.eqb ("$2a$10$" +:+ pw) h;
     Auth.jwt_sign := fun p => "good";
     Auth.persist_user := fun _ => None;
     Auth.gen_userId := fun n => "u" +:+ pretty (S n) |}.

Definition sara : Auth.RegisterBody :=
  {| Auth.rb_username := "sara"; Auth.rb_email := "sara@example.com";
     Auth.rb_password := "secret1" |}.


Definition pipe : Cart.Product :=
  {| Cart.prod_id := "pipe-20"; Cart.prod_rest := "PVC pipe 20mm" |}.

Definition elbow : Cart.Product :=
  {| Cart.prod_id := "elbow-20"; Cart.prod_rest := "PVC elbow 20mm" |}.

End Demo.

(** * Properties *)

(** ** Checks of the helpers and the scenarios of the specification *)

Example replace_bearer : replace_first "Bearer " "" "Bearer abc" = "abc".
Proof. reflexivity. Qed.

Example replace_inner : replace_first "Bearer " "" "x Bearer abc" = "x abc".
Proof. reflexivity. Qed.

Example replace_absent : replace_first "Bearer " "" "abc" = "abc".
Proof. reflexivity. Qed.

Example scenario_create :
  serve (create_order (Sample.env_code 100) None
           (Sample.body [Sample.item 100000 2] 250000)) Sample.empty
  = (json 201 (OrderCreated MSG_CREATED (Sample.order None UNPAID None)),
     {| db := [Sample.order None UNPAID None];
        trace := [EvSave 0 (Sample.order None UNPAID None)] |}).
Proof. reflexivity. Qed.

Example scenario_request :
  serve (request_payment (Sample.env_code 100) "shop.example" "ORD-0")
        (Sample.world_of (Sample.order None UNPAID None))
  = (json 200 (PaymentUrl "https://www.zarinpal.com/pg/StartPay/A1"),
     {| db := [Sample.order (Some "A1") UNPAID None];
        trace := [EvPost ZARINPAL_API_REQUEST
                    (RequestPayload (Some "merchant") 250000 ("سفارش " +:+ "ORD-0")
                       "http://shop.example/payment-verify.html?orderId=ORD-0");
                  EvSave 0 (Sample.order (Some "A1") UNPAID None)] |}).
Proof. reflexivity. Qed.

Example scenario_verify_paid :
  fst (serve (verify_payment (Sample.env_code 100) "A1" "ORD-0")
         (Sample.world_of (Sample.order (Some "A1") UNPAID None)))
  = json 200 (VerifyOk true "پرداخت شما با موفقیت تایید شد."
                (Sample.order (Some "A1") PAID (Some "R9"))).
Proof. reflexivity. Qed.

Example scenario_verify_failed :
  fst (serve (verify_payment (Sample.env_code 101) "A1" "ORD-0")
         (Sample.world_of (Sample.order (Some "A1") UNPAID None)))
  = json 400 (VerifyFail false "پرداخت ناموفق بود" (Sample.reply 101)
                (Sample.order (Some "A1") FAILED None)).
Proof. reflexivity. Qed.

(** ** Pricing *)

Lemma reduce_present (items : list Item) (acc : float) :
  reduce_subtotal (Some <$> items) acc
  = Ok (fold_left (fun sum item => sum + price item * quantity item)%float
          items acc).
Proof.
  revert acc. induction items as [|it rest IH]; intros acc; [reflexivity|].
  cbn [fmap list_fmap reduce_subtotal fold_left]. apply IH.
Qed.

Lemma present_fmap (items : list Item) : present (Some <$> items) = items.
Proof.
  unfold present. induction items as [|it rest IH]; [reflexivity|].
  cbn. f_equal. exact IH.
Qed.

Lemma reduce_cases (elems : list (option Item)) (acc : float) :
  (exists items, elems = Some <$> items)
  \/ (None ∈ elems /\ reduce_subtotal elems acc = Throw TYPE_ERROR).
Proof.
  revert acc. induction elems as [|[it|] rest IH]; intros acc.
  - left. exists []. reflexivity.
  - destruct (IH (acc + price it * quantity it)%float)
      as [(items & ->) | (Hin & Hthrow)].
    + left. exists (it :: items). reflexivity.
    + right. split; [right; exact Hin | exact Hthrow].
  - right. split; [left | reflexivity].
Qed.

Lemma exact_mul_elim (x y : float) :
  exact_mul x y = true ->
  exists a b, float_to_Z x = Some a /\ float_to_Z y = Some b
              /\ float_to_Z (x * y)%float = Some (a * b)%Z.
Proof.
  unfold exact_mul.
  destruct (float_to_Z x) as [a|]; [|discriminate].
  destruct (float_to_Z y) as [b|]; [|discriminate].
  destruct (float_to_Z (x * y)%float) as [c|]; [|discriminate].
  intros Hc. apply Z.eqb_eq in Hc. subst c. eauto.
Qed.

Lemma exact_add_elim (x y : float) :
  exact_add x y = true ->
  exists a b, float_to_Z x = Some a /\ float_to_Z y = Some b
              /\ float_to_Z (x + y)%float = Some (a + b)%Z.
Proof.
  unfold exact_add.
  destruct (float_to_Z x) as [a|]; [|discriminate].
  destruct (float_to_Z y) as [b|]; [|discriminate].
  destruct (float_to_Z (x + y)%float) as [c|]; [|discriminate].
  intros Hc. apply Z.eqb_eq in Hc. subst c. eauto.
Qed.

Lemma exact_steps_sum (items : list Item) (acc : float) (a : Z) :
  exact_steps acc items = true ->
  float_to_Z acc = Some a ->
  exists total,
    sum_price_quantity items = Some total
    /\ float_to_Z
         (fold_left (fun sum item => sum + price item * quantity item)%float
            items acc) = Some (a + total)%Z.
Proof.
  revert acc a. induction items as [|it rest IH]; intros acc a Hsteps Hacc.
  - exists 0%Z. split; [reflexivity|]. cbn [fold_left].
    rewrite Hacc, Z.add_0_r. reflexivity.
  - cbn [exact_steps] in Hsteps.
    apply andb_prop in Hsteps as [Hsteps Hrest].
    apply andb_prop in Hsteps as [Hmul Hadd].
    destruct (exact_mul_elim _ _ Hmul) as (p & q & Hp & Hq & Hpq).
    destruct (exact_add_elim _ _ Hadd) as (a' & c & Ha' & Hc & Hsum).
    rewrite Hacc in Ha'. injection Ha' as <-.
    rewrite Hpq in Hc. injection Hc as <-.
    destruct (IH _ _ Hrest Hsum) as (total & Htotal & Hfold).
    exists (p * q + total)%Z. split.
    + cbn [sum_price_quantity]. rewrite Hp, Hq, Htotal. reflexivity.
    + cbn [fold_left]. rewrite Hfold. f_equal. lia.
Qed.

(** C6, as stated, fails: the sum is taken in binary64. For the items
    2^53 × 1, 1 × 1, 1 × 1, 1 × 1 the subtotal computed, and stored by
    create-order when 2^53 + 50000 is declared, is 2^53, while
    Σ price × quantity is 2^53 + 3. *)
Lemma subtotal_rounds :
  sum_price_quantity
    [Sample.item 9007199254740992 1; Sample.item 1 1; Sample.item 1 1;
     Sample.item 1 1] = Some 9007199254740995%Z
  /\ float_to_Z
       (calc_subtotal
          [Sample.item 9007199254740992 1; Sample.item 1 1; Sample.item 1 1;
           Sample.item 1 1]) = Some 9007199254740992%Z
  /\ exists o,
       fst (serve (create_order (Sample.env_code 100) None
                     (Sample.body
                        [Sample.item 9007199254740992 1; Sample.item 1 1;
                         Sample.item 1 1; Sample.item 1 1]
                        9007199254790992)) Sample.empty)
       = json 201 (OrderCreated MSG_CREATED o)
       /\ float_to_Z (subtotal o) = Some 9007199254740992%Z.
Proof.
  split; [reflexivity|]. split; [reflexivity|].
  eexists. split; reflexivity.
Qed.

(** C6 (amended). The computation yields subtotal = the binary64 sum,
    accumulated from 0 in the order of the items, of the binary64 products
    price × quantity, and finalAmount = subtotal + 50000 in binary64. For
    items with integer prices and quantities, when no product, no partial
    sum and not the final addition is rounded, these are Σ price × quantity
    and Σ price × quantity + 50000 exactly; one item of price 100000 and
    quantity 2 gives 200000 and 250000, the figures of the order that
    create-order stores. *)
Theorem pricing_exact :
  (forall items,
     exact_steps 0 items = true ->
     exact_add (calc_subtotal items) SHIPPING_COST = true ->
     exists total,
       sum_price_quantity items = Some total
       /\ float_to_Z (calc_subtotal items) = Some total
       /\ float_to_Z (calc_finalAmount items) = Some (total + 50000)%Z) /\
  calc_subtotal [Sample.item 100000 2] = 200000%float /\
  calc_finalAmount [Sample.item 100000 2] = 250000%float /\
  (exists o,
     body (fst (serve (create_order (Sample.env_code 100) None
                         (Sample.body [Sample.item 100000 2] 250000))
                  Sample.empty)) = OrderCreated MSG_CREATED o /\
     subtotal o = 200000%float /\ amount o = 250000%float).
Proof.
  split; [|split; [|split]].
  - intros items Hsteps Hfinal.
    destruct (exact_steps_sum items 0%float 0%Z Hsteps eq_refl)
      as (total & Htotal & Hsub).
    fold (calc_subtotal items) in Hsub. rewrite Z.add_0_l in Hsub.
    exists total. split; [exact Htotal|]. split; [exact Hsub|].
    destruct (exact_add_elim _ _ Hfinal) as (a & b & Ha & Hb & Hsum).
    rewrite Hsub in Ha. injection Ha as <-.
    change (float_to_Z SHIPPING_COST) with (Some 50000%Z) in Hb.
    injection Hb as <-. exact Hsum.
  - reflexivity.
  - reflexivity.
  - eexists. split; [reflexivity|]. split; reflexivity.
Qed.

Lemma pricing_exact_witness :
  exists total,
    sum_price_quantity [Sample.item 100000 2; Sample.item 2500 3] = Some total
    /\ float_to_Z (calc_subtotal [Sample.item 100000 2; Sample.item 2500 3])
       = Some total
    /\ float_to_Z (calc_finalAmount [Sample.item 100000 2; Sample.item 2500 3])
       = Some (total + 50000)%Z.
Proof.
  apply (proj1 pricing_exact [Sample.item 100000 2; Sample.item 2500 3]);
    reflexivity.
Defined.

(** ** Running create-order *)

Lemma optional_user_run (env : Env) (authHeader : option string) (w : World) :
  exists u evs,
    optional_user env authHeader w
      = (Ok u, {| db := db w; trace := trace w ++ evs |})
    /\ no_post evs
    /\ (no_valid_credential env authHeader -> u = None).
Proof.
  assert (Hw : w = {| db := db w; trace := trace w ++ [] |})
    by (rewrite app_nil_r; destruct w; reflexivity).
  destruct authHeader as [[|c h]|]; cbn [optional_user].
  - exists None, []. unfold ret. rewrite <- Hw.
    split; [reflexivity|]. split; [intros url p []|reflexivity].
  - destruct (jwt_verify env (replace_first "Bearer " "" (String c h)))
      as [decoded|] eqn:Hjwt.
    + exists (Some (jwt_id decoded)), []. unfold ret. rewrite <- Hw.
      split; [reflexivity|]. split; [intros url p []|].
      intros [Hfalsy | (h' & Hh & Hbad)]; [discriminate|].
      injection Hh as <-. congruence.
    + exists None, [EvWarn "توکن نامعتبر در هنگام ایجاد سفارش."].
      split; [reflexivity|]. split; [|reflexivity].
      intros url p [Hin | []]. discriminate.
  - exists None, []. unfold ret. rewrite <- Hw.
    split; [reflexivity|]. split; [intros url p []|reflexivity].
Qed.

Lemma create_order_outcome (env : Env) (authHeader : option string)
    (req : CreateOrderBody) (w : World) :
  create_outcome env authHeader req w
    (serve (create_order env authHeader req) w).
Proof.
  unfold serve, create_order.
  destruct (co_products req) as [| |[|elem rest]] eqn:Hp;
    try (apply CreateIncomplete; right; left; rewrite Hp; exact I).
  destruct (co_shippingInfo req) as [si|] eqn:Hsi;
    [|apply CreateIncomplete; left; rewrite Hsi; reflexivity].
  cbn [falsy]. destruct (truthy si) eqn:Hts; cbn [negb orb];
    [|apply CreateIncomplete; left; rewrite Hsi; cbn [falsy]; rewrite Hts;
      reflexivity].
  destruct (co_amount req) as [amt|] eqn:Ha;
    [|apply CreateIncomplete; right; right; rewrite Ha; reflexivity].
  cbn [falsy]. destruct (truthy amt) eqn:Hta; cbn [negb];
    [|apply CreateIncomplete; right; right; rewrite Ha; cbn [falsy];
      rewrite Hta; reflexivity].
  cbv zeta.
  change (default JNull (Some si)) with si.
  change (default JNull (Some amt)) with amt.
  destruct (optional_user_run env authHeader w) as (u & evs & Hu & _ & _).
  unfold bind at 1. rewrite Hu.
  destruct (reduce_cases (elem :: rest) 0%float)
    as [(items & Hitems) | (Hnull & Hthrow)].
  - assert (Hc : complete_input req si items amt).
    { constructor; auto; [rewrite <- Hitems; exact Hp|].
      intros ->. discriminate Hitems. }
    rewrite Hitems, present_fmap. unfold bind at 1, settle.
    rewrite reduce_present. fold (calc_subtotal items).
    fold (calc_finalAmount items).
    destruct (exceeds_tolerance (calc_finalAmount items) amt) eqn:Hex.
    + eapply CreateMismatch; eauto.
    + unfold bind, save_new, ret. cbn [db trace].
      destruct (persist env _) as [e|] eqn:Hpersist.
      * eapply CreateThrown; eauto.
      * eapply CreateStored; eauto.
  - unfold bind at 1, settle. rewrite Hthrow.
    eapply CreateTypeError; eauto.
Qed.

(** Case analysis on the way a create-order request ended. *)
Ltac outcome_cases env authHeader req w :=
  let Hout := fresh "Hout" in
  pose proof (create_order_outcome env authHeader req w) as Hout;
  inversion Hout as [Hinc0 Heq0
                    | si0 elems0 amt0 u0 evs0 Hsi0 Hts0 Hp0 Hnull0 Ha0 Hta0
                        Hu0 Heq0
                    | si0 items0 amt0 u0 evs0 Hc0 Hu0 Hgt0 Heq0
                    | si0 items0 amt0 u0 evs0 o0 Hc0 Hu0 Hle0 Ho0 Hp0 Heq0
                    | si0 items0 amt0 u0 evs0 o0 e0 Hc0 Hu0 Hle0 Ho0 Hp0 Heq0].

Lemma complete_not_rejectable (req : CreateOrderBody) si items amt :
  complete_input req si items amt ->
  exceeds_tolerance (calc_finalAmount items) amt = false ->
  ~ (incomplete_or_falsy req \/ amount_mismatch req).
Proof.
  intros [Hsi Hts Hp Hne Ha Hta] Hle [[H | [H | H]] | H].
  - rewrite Hsi in H. cbn [falsy] in H. rewrite Hts in H. discriminate H.
  - rewrite Hp in H. destruct items; [congruence | exact H].
  - rewrite Ha in H. cbn [falsy] in H. rewrite Hta in H. discriminate H.
  - destruct H as (items' & amt' & Hp' & Ha' & Hgt).
    rewrite Hp in Hp'. rewrite Ha in Ha'.
    injection Hp' as Hitems. injection Ha' as <-.
    apply (f_equal present) in Hitems. rewrite !present_fmap in Hitems.
    subst items'. congruence.
Qed.


(** ** Validation of create-order *)




(** ** Identity on order creation and on my-orders *)

(** C9. create-order with a complete input (truthy shipping info and
    declared amount, a non-empty array without null elements), an amount
    within the tolerance of the handler's comparison and an accepting store
    succeeds with owning user null when the credential is absent or does
    not verify; my-orders without a credential answers 401 with a message
    only and touches nothing. *)
Theorem identity_soft_fail_only_on_create (env : Env)
    (authHeader : option string) (req : CreateOrderBody) (w : World)
    si items amt :
  complete_input req si items amt ->
  exceeds_tolerance (calc_finalAmount items) amt = false ->
  store_accepts env ->
  no_valid_credential env authHeader ->
  (exists o : Order,
     fst (serve (create_order env authHeader req) w)
       = json 201 (OrderCreated MSG_CREATED o)
     /\ user o = None
     /\ db (snd (serve (create_order env authHeader req) w))
        = (db w ++ [o])%list)
  /\ (forall h w0, truthy_str h = false ->
       serve (my_orders env h) w0
       = (json 401 (Message "دسترسی مجاز نیست. توکن ارائه نشده است."), w0)).
Proof.
  intros Hc Hle Hstore Hcred. split.
  - destruct (optional_user_run env authHeader w) as (u & evs & Hu & _ & Hnone).
    specialize (Hnone Hcred). subst u.
    outcome_cases env authHeader req w.
    + exfalso. apply (complete_not_rejectable _ _ _ _ Hc Hle). left. exact Hinc0.
    + exfalso. destruct Hc as [_ _ Hp _ _ _]. rewrite Hp in Hp0.
      injection Hp0 as <-.
      apply list_elem_of_fmap in Hnull0 as (it & Hit & _). discriminate Hit.
    + exfalso. apply (complete_not_rejectable _ _ _ _ Hc Hle). right.
      exists items0, amt0. destruct Hc0. auto.
    + exists o0. split; [reflexivity|]. split; [|reflexivity].
      rewrite Hu in Hu0. injection Hu0 as <- _. rewrite Ho0. reflexivity.
    + rewrite Hstore in Hp0. discriminate Hp0.
  - intros h w0 Hh. unfold serve, my_orders, authMiddleware.
    destruct h as [[|c h]|]; [reflexivity | discriminate Hh | reflexivity].
Qed.

Lemma identity_soft_fail_witness :
  (exists o : Order,
     fst (serve (create_order (Sample.env_code 100) (Some "Bearer forged")
                   (Sample.body [Sample.item 100000 2] 250000)) Sample.empty)
       = json 201 (OrderCreated MSG_CREATED o)
     /\ user o = None
     /\ db (snd (serve (create_order (Sample.env_code 100) (Some "Bearer forged")
                          (Sample.body [Sample.item 100000 2] 250000))
                   Sample.empty)) = (db Sample.empty ++ [o])%list)
  /\ (forall h w0, truthy_str h = false ->
       serve (my_orders (Sample.env_code 100) h) w0
       = (json 401 (Message "دسترسی مجاز نیست. توکن ارائه نشده است."), w0)).
Proof.
  apply (identity_soft_fail_only_on_create (Sample.env_code 100)
           (Some "Bearer forged")
           (Sample.body [Sample.item 100000 2] 250000) Sample.empty
           (Shipping "Tehran") [Sample.item 100000 2] (JNumber 250000)).
  - constructor; [reflexivity | reflexivity | reflexivity | discriminate
                 | reflexivity | reflexivity].
  - reflexivity.
  - intros o. reflexivity.
  - right. exists "Bearer forged". split; reflexivity.
Defined.

(** ** Running request-payment and verify-payment *)

Lemma request_payment_missing (env : Env) (host oid : string) (w : World) :
  list_find (by_orderId oid) (db w) = None ->
  serve (request_payment env host oid) w
  = (json 404 (Message "سفارش یافت نشد."), w).
Proof.
  intros Hfind. unfold serve, request_payment, bind, findOne.
  rewrite Hfind. reflexivity.
Qed.

Lemma request_payment_found (env : Env) (host oid : string) (w : World) i o :
  list_find (by_orderId oid) (db w) = Some (i, o) ->
  serve (request_payment env host oid) w
  = let w1 := emit (EvPost ZARINPAL_API_REQUEST
                      (request_payload env host oid o)) w in
    match axios_post env ZARINPAL_API_REQUEST
            (request_payload env host oid o) with
    | Throw e => errorHandler e w1
    | Ok z =>
        if (code (data z) =? 100)%Z then
          let o' := set_paymentAuthority (authority (data z)) o in
          match persist env o' with
          | Some e => errorHandler e w1
          | None =>
              (json 200 (PaymentUrl (ZARINPAL_GATEWAY_URL
                                     +:+ authority (data z))),
               {| db := <[i:=o']> (db w);
                  trace := trace w1 ++ [EvSave i o'] |})
          end
        else (json 500 (GatewayError "خطا در اتصال به درگاه پرداخت" z), w1)
    end.
Proof.
  intros Hfind. unfold serve, request_payment, bind, findOne, post.
  rewrite Hfind. fold (request_payload env host oid o). cbv zeta.
  destruct (axios_post env ZARINPAL_API_REQUEST
              (request_payload env host oid o)) as [z|e]; [|reflexivity].
  destruct (code (data z) =? 100)%Z; [|reflexivity].
  unfold save_at. cbn [db trace emit].
  destruct (persist env (set_paymentAuthority (authority (data z)) o));
    reflexivity.
Qed.

Lemma verify_payment_missing (env : Env) (auth oid : string) (w : World) :
  list_find (by_orderId_authority oid auth) (db w) = None ->
  serve (verify_payment env auth oid) w
  = (json 404 (Message "تراکنش یافت نشد."), w).
Proof.
  intros Hfind. unfold serve, verify_payment, bind, findOne.
  rewrite Hfind. reflexivity.
Qed.

Lemma verify_payment_found (env : Env) (auth oid : string) (w : World) i o :
  list_find (by_orderId_authority oid auth) (db w) = Some (i, o) ->
  serve (verify_payment env auth oid) w
  = let w1 := emit (EvPost ZARINPAL_API_VERIFY (verify_payload env auth o)) w in
    match axios_post env ZARINPAL_API_VERIFY (verify_payload env auth o) with
    | Throw e => errorHandler e w1
    | Ok z =>
        match persist env (finalized z o) with
        | Some e => errorHandler e w1
        | None =>
            (if (code (data z) =? 100)%Z
             then json 200 (VerifyOk true "پرداخت شما با موفقیت تایید شد."
                              (finalized z o))
             else json 400 (VerifyFail false "پرداخت ناموفق بود" z
                              (finalized z o)),
             {| db := <[i:=finalized z o]> (db w);
                trace := trace w1 ++ [EvSave i (finalized z o)] |})
        end
    end.
Proof.
  intros Hfind. unfold serve, verify_payment, bind, findOne, post.
  rewrite Hfind. fold (verify_payload env auth o). cbv zeta.
  destruct (axios_post env ZARINPAL_API_VERIFY (verify_payload env auth o))
    as [z|e]; [|reflexivity].
  unfold finalized, save_at. cbn [db trace emit].
  destruct (code (data z) =? 100)%Z.
  - destruct (persist env _); reflexivity.
  - destruct (persist env _); reflexivity.
Qed.

Lemma found_in_range {P : Order -> Prop} `{forall o, Decision (P o)}
    (l : list Order) i o :
  list_find P l = Some (i, o) -> l !! i = Some o /\ i < length l /\ P o.
Proof.
  intros Hfind. apply list_find_Some in Hfind as (Hi & HP & _).
  split; [exact Hi|]. split; [|exact HP].
  apply lookup_lt_Some in Hi. exact Hi.
Qed.

Lemma finalized_status (z : ZarinpalBody) (o : Order) :
  paymentStatus (finalized z o)
  = if (code (data z) =? 100)%Z then PAID else FAILED.
Proof. unfold finalized. destruct (code (data z) =? 100)%Z; reflexivity. Qed.

Lemma finalized_amount (z : ZarinpalBody) (o : Order) :
  amount (finalized z o) = amount o.
Proof. unfold finalized. destruct (code (data z) =? 100)%Z; reflexivity. Qed.

(** ** verify-payment *)

(** C2. verify-payment answers 404 and changes nothing when no order
    matches both the identifier and the authority. When an order matches,
    the gateway replies and the store accepts the write, the order is
    written back with status PAID and the reference id of the reply (code
    100, answer 200 with success true and the order) or with status FAILED
    (any other code, answer 400 with success false, the reply as detail and
    the order); the written status is exactly one of the two, and an order
    that was in neither status is changed by the call. *)
Theorem verify_finalizes (env : Env) (auth oid : string) (w : World) :
  (list_find (by_orderId_authority oid auth) (db w) = None ->
   serve (verify_payment env auth oid) w
   = (json 404 (Message "تراکنش یافت نشد."), w))
  /\ (forall i o z,
        list_find (by_orderId_authority oid auth) (db w) = Some (i, o) ->
        axios_post env ZARINPAL_API_VERIFY (verify_payload env auth o) = Ok z ->
        store_accepts env ->
        exists o' : Order,
          db (snd (serve (verify_payment env auth oid) w)) = <[i:=o']> (db w)
          /\ db (snd (serve (verify_payment env auth oid) w)) !! i = Some o'
          /\ In (EvSave i o') (trace (snd (serve (verify_payment env auth oid) w)))
          /\ ((code (data z) = 100%Z
               /\ o' = set_paymentRefId (ref_id (data z))
                         (set_paymentStatus PAID o)
               /\ paymentStatus o' = PAID
               /\ paymentRefId o' = Some (ref_id (data z))
               /\ fst (serve (verify_payment env auth oid) w)
                  = json 200 (VerifyOk true "پرداخت شما با موفقیت تایید شد." o'))
              \/
              (code (data z) <> 100%Z
               /\ o' = set_paymentStatus FAILED o
               /\ paymentStatus o' = FAILED
               /\ fst (serve (verify_payment env auth oid) w)
                  = json 400 (VerifyFail false "پرداخت ناموفق بود" z o')))
          /\ (paymentStatus o' = PAID <-> paymentStatus o' <> FAILED)
          /\ (paymentStatus o <> PAID -> paymentStatus o <> FAILED -> o' <> o)).
Proof.
  split; [apply verify_payment_missing|].
  intros i o z Hfind Hpost Hstore.
  rewrite (verify_payment_found env auth oid w i o Hfind). cbv zeta.
  rewrite Hpost, Hstore. cbn [fst snd db trace].
  destruct (found_in_range _ _ _ Hfind) as (_ & Hlt & _).
  exists (finalized z o).
  split; [reflexivity|].
  split; [apply list_lookup_insert_eq; exact Hlt|].
  split; [apply in_or_app; right; left; reflexivity|].
  pose proof (finalized_status z o) as Hst.
  unfold finalized in *.
  destruct (Z.eqb_spec (code (data z)) 100) as [Hc|Hc].
  - split; [left; auto|]. split.
    + rewrite Hst. split; [discriminate | reflexivity].
    + intros Hp _ Heq. apply Hp. rewrite <- Heq. exact Hst.
  - split; [right; auto|]. split.
    + rewrite Hst. split; [discriminate | intros H; exfalso; apply H; reflexivity].
    + intros _ Hf Heq. apply Hf. rewrite <- Heq. exact Hst.
Qed.

Lemma verify_finalizes_witness :
  exists o' : Order,
    db (snd (serve (verify_payment (Sample.env_code 101) "A1" "ORD-0")
               (Sample.world_of (Sample.order (Some "A1") UNPAID None))))
      !! 0 = Some o'
    /\ paymentStatus o' = FAILED.
Proof.
  destruct (proj2 (verify_finalizes (Sample.env_code 101) "A1" "ORD-0"
                     (Sample.world_of (Sample.order (Some "A1") UNPAID None)))
              0 (Sample.order (Some "A1") UNPAID None) (Sample.reply 101)
              eq_refl eq_refl (fun _ => eq_refl))
    as (o' & _ & Hlook & _ & [(Hc & _) | (_ & _ & Hst & _)] & _).
  - discriminate Hc.
  - exists o'. split; [exact Hlook | exact Hst].
Defined.

(** C1, as stated, fails: an order that is PAID is matched again by its
    identifier and authority, the gateway answers a stale re-check with a
    code other than 100, and the stored status becomes FAILED. *)
Lemma paid_order_regressed :
  list_find (by_orderId_authority "ORD-0" "A1")
    (db (Sample.world_of (Sample.order (Some "A1") PAID (Some "R9"))))
  = Some (0, Sample.order (Some "A1") PAID (Some "R9"))
  /\ paymentStatus (Sample.order (Some "A1") PAID (Some "R9")) = PAID
  /\ paymentStatus <$>
       db (snd (serve (verify_payment (Sample.env_code 101) "A1" "ORD-0")
                  (Sample.world_of (Sample.order (Some "A1") PAID (Some "R9")))))
       !! 0
     = Some FAILED.
Proof. split; [reflexivity|]. split; reflexivity. Qed.

(** C1 (amended). For an order whose status is already PAID and which a
    verify-payment call matches, the status stays PAID when the gateway
    answers code 100; the handler has no guard on the current status, and
    with any other code it writes FAILED. *)
Theorem verify_on_paid_follows_gateway (env : Env) (auth oid : string)
    (w : World) i o z :
  list_find (by_orderId_authority oid auth) (db w) = Some (i, o) ->
  paymentStatus o = PAID ->
  axios_post env ZARINPAL_API_VERIFY (verify_payload env auth o) = Ok z ->
  store_accepts env ->
  paymentStatus <$> db (snd (serve (verify_payment env auth oid) w)) !! i
  = Some (if (code (data z) =? 100)%Z then PAID else FAILED).
Proof.
  intros Hfind _ Hpost Hstore.
  rewrite (verify_payment_found env auth oid w i o Hfind). cbv zeta.
  rewrite Hpost, Hstore. cbn [snd db].
  destruct (found_in_range _ _ _ Hfind) as (_ & Hlt & _).
  rewrite list_lookup_insert_eq by exact Hlt.
  cbn [fmap option_fmap option_map]. rewrite finalized_status. reflexivity.
Qed.

Lemma verify_on_paid_witness :
  paymentStatus (Sample.order (Some "A1") PAID (Some "R9")) = PAID
  /\ paymentStatus <$>
       db (snd (serve (verify_payment (Sample.env_code 100) "A1" "ORD-0")
                  (Sample.world_of (Sample.order (Some "A1") PAID (Some "R9")))))
       !! 0
     = Some PAID.
Proof.
  split; [reflexivity|].
  apply (verify_on_paid_follows_gateway (Sample.env_code 100) "A1" "ORD-0"
           (Sample.world_of (Sample.order (Some "A1") PAID (Some "R9")))
           0 (Sample.order (Some "A1") PAID (Some "R9")) (Sample.reply 100)).
  - reflexivity.
  - reflexivity.
  - reflexivity.
  - intros o. reflexivity.
Defined.

(** ** request-payment *)

(** C5. For an order found by its identifier to which the gateway
    replies: with code 100 (and the write accepted) the returned authority
    is saved on the order and the answer is the payment URL, the fixed
    gateway base followed by that authority; with any other code the answer
    is an error carrying the reply as detail and the collection is
    unchanged. *)
Theorem request_payment_outcome (env : Env) (host oid : string) (w : World)
    i o z :
  list_find (by_orderId oid) (db w) = Some (i, o) ->
  axios_post env ZARINPAL_API_REQUEST (request_payload env host oid o) = Ok z ->
  (code (data z) = 100%Z ->
   persist env (set_paymentAuthority (authority (data z)) o) = None ->
   fst (serve (request_payment env host oid) w)
     = json 200 (PaymentUrl (ZARINPAL_GATEWAY_URL +:+ authority (data z)))
   /\ db (snd (serve (request_payment env host oid) w))
      = <[i:=set_paymentAuthority (authority (data z)) o]> (db w)
   /\ paymentAuthority <$> db (snd (serve (request_payment env host oid) w)) !! i
      = Some (Some (authority (data z)))
   /\ In (EvSave i (set_paymentAuthority (authority (data z)) o))
        (trace (snd (serve (request_payment env host oid) w))))
  /\ (code (data z) <> 100%Z ->
      fst (serve (request_payment env host oid) w)
        = json 500 (GatewayError "خطا در اتصال به درگاه پرداخت" z)
      /\ db (snd (serve (request_payment env host oid) w)) = db w).
Proof.
  intros Hfind Hpost.
  rewrite (request_payment_found env host oid w i o Hfind). cbv zeta.
  rewrite Hpost.
  destruct (found_in_range _ _ _ Hfind) as (_ & Hlt & _).
  split.
  - intros Hc Hpersist. apply Z.eqb_eq in Hc. rewrite Hc, Hpersist.
    cbn [fst snd db trace].
    split; [reflexivity|]. split; [reflexivity|].
    split; [rewrite list_lookup_insert_eq by exact Hlt; reflexivity|].
    apply in_or_app. right. left. reflexivity.
  - intros Hc. apply Z.eqb_neq in Hc. rewrite Hc.
    split; reflexivity.
Qed.

Lemma request_payment_outcome_witness :
  fst (serve (request_payment (Sample.env_code 100) "shop.example" "ORD-0")
         (Sample.world_of (Sample.order None UNPAID None)))
    = json 200 (PaymentUrl (ZARINPAL_GATEWAY_URL +:+ "A1"))
  /\ paymentAuthority <$>
       db (snd (serve (request_payment (Sample.env_code 100) "shop.example" "ORD-0")
                  (Sample.world_of (Sample.order None UNPAID None)))) !! 0
     = Some (Some "A1").
Proof.
  destruct (proj1 (request_payment_outcome (Sample.env_code 100) "shop.example"
                     "ORD-0" (Sample.world_of (Sample.order None UNPAID None))
                     0 (Sample.order None UNPAID None) (Sample.reply 100)
                     eq_refl eq_refl) eq_refl eq_refl)
    as (Hres & _ & Hauth & _).
  split; [exact Hres | exact Hauth].
Defined.

(** C7. request-payment never reads the payment status: for every order
    found by its identifier, whatever its status (PAID included), the
    gateway is called and, on code 100 with the write accepted, the stored
    authority is replaced by the returned one, the status is left as it
    was, and a payment URL for the new authority is answered. *)
Theorem request_payment_ignores_status (env : Env) (host oid : string)
    (w : World) i o z :
  list_find (by_orderId oid) (db w) = Some (i, o) ->
  axios_post env ZARINPAL_API_REQUEST (request_payload env host oid o) = Ok z ->
  code (data z) = 100%Z ->
  persist env (set_paymentAuthority (authority (data z)) o) = None ->
  In (EvPost ZARINPAL_API_REQUEST (request_payload env host oid o))
     (trace (snd (serve (request_payment env host oid) w)))
  /\ (exists o' : Order,
        db (snd (serve (request_payment env host oid) w)) !! i = Some o'
        /\ paymentAuthority o' = Some (authority (data z))
        /\ paymentStatus o' = paymentStatus o
        /\ paymentRefId o' = paymentRefId o)
  /\ fst (serve (request_payment env host oid) w)
     = json 200 (PaymentUrl (ZARINPAL_GATEWAY_URL +:+ authority (data z))).
Proof.
  intros Hfind Hpost Hc Hpersist.
  rewrite (request_payment_found env host oid w i o Hfind). cbv zeta.
  apply Z.eqb_eq in Hc. rewrite Hpost, Hc, Hpersist.
  cbn [fst snd db trace emit].
  destruct (found_in_range _ _ _ Hfind) as (_ & Hlt & _).
  split.
  - apply in_or_app. left. apply in_or_app. right. left. reflexivity.
  - split; [|reflexivity].
    exists (set_paymentAuthority (authority (data z)) o).
    split; [apply list_lookup_insert_eq; exact Hlt|].
    split; [reflexivity|]. split; reflexivity.
Qed.

Lemma request_payment_on_paid_witness :
  paymentStatus (Sample.order (Some "A0") PAID (Some "R9")) = PAID
  /\ db (snd (serve (request_payment (Sample.env_code 100) "shop.example" "ORD-0")
                (Sample.world_of (Sample.order (Some "A0") PAID (Some "R9")))))
       !! 0
     = Some (Sample.order (Some "A1") PAID (Some "R9"))
  /\ fst (serve (request_payment (Sample.env_code 100) "shop.example" "ORD-0")
            (Sample.world_of (Sample.order (Some "A0") PAID (Some "R9"))))
     = json 200 (PaymentUrl (ZARINPAL_GATEWAY_URL +:+ "A1")).
Proof.
  split; [reflexivity|].
  destruct (request_payment_ignores_status (Sample.env_code 100) "shop.example"
              "ORD-0" (Sample.world_of (Sample.order (Some "A0") PAID (Some "R9")))
              0 (Sample.order (Some "A0") PAID (Some "R9")) (Sample.reply 100)
              eq_refl eq_refl eq_refl eq_refl)
    as (_ & _ & Hres).
  split; [reflexivity | exact Hres].
Defined.

(** ** The error middleware *)

(** C10, as stated, fails: the text of the failure is part of the
    answer. A refused connection to the gateway during verify-payment
    reaches the client with its host and port, and two failures with
    different texts are answered differently. *)
Lemma error_message_sent_to_client :
  fst (serve (verify_payment Sample.env_down "A1" "ORD-0")
         (Sample.world_of (Sample.order (Some "A1") UNPAID None)))
    = json 500 (ServerError MSG_SERVER_ERROR "connect ECONNREFUSED 10.0.0.5:443")
  /\ fst (errorHandler Sample.ECONNREFUSED Sample.empty)
     <> fst (errorHandler {| err_message := "E11000 duplicate key error";
                             err_stack := "" |} Sample.empty).
Proof. split; [reflexivity | discriminate]. Qed.

(** C10 (amended). Every failure thrown by a handler is answered by the
    error middleware with status 500, the fixed generic message and the
    failure's own message text in the member [error]; the stack is logged
    and is not part of the answer, which is the same for two failures with
    the same message. *)
Theorem error_response (h : M Response) (w w' : World) (e : JsError) :
  h w = (Throw e, w') ->
  serve h w
    = (json 500 (ServerError MSG_SERVER_ERROR (err_message e)),
       emit (EvError "❌ خطای داخلی سرور:" (err_stack e)) w')
  /\ (forall e2 w2,
        err_message e2 = err_message e ->
        fst (errorHandler e2 w2) = fst (serve h w)).
Proof.
  intros Hthrow. unfold serve. rewrite Hthrow. unfold errorHandler.
  split; [reflexivity|].
  intros e2 w2 Hmsg. cbn [fst]. rewrite Hmsg. reflexivity.
Qed.

Lemma error_response_witness :
  serve (verify_payment Sample.env_down "A1" "ORD-0")
    (Sample.world_of (Sample.order (Some "A1") UNPAID None))
  = (json 500 (ServerError MSG_SERVER_ERROR
                 (err_message Sample.ECONNREFUSED)),
     emit (EvError "❌ خطای داخلی سرور:" (err_stack Sample.ECONNREFUSED))
       (emit (EvPost ZARINPAL_API_VERIFY
                (verify_payload Sample.env_down "A1"
                   (Sample.order (Some "A1") UNPAID None)))
          (Sample.world_of (Sample.order (Some "A1") UNPAID None)))).
Proof.
  apply (proj1 (error_response
                  (verify_payment Sample.env_down "A1" "ORD-0")
                  (Sample.world_of (Sample.order (Some "A1") UNPAID None))
                  _ Sample.ECONNREFUSED eq_refl)).
Defined.

(** ** Amount integrity *)

Lemma insert_keeps_amount (l : list Order) i o o' j :
  l !! i = Some o -> amount o' = amount o ->
  amount <$> <[i:=o']> l !! j = amount <$> l !! j.
Proof.
  intros Hi Ha. destruct (decide (i = j)) as [<-|Hne].
  - rewrite list_lookup_insert_eq by (apply lookup_lt_Some in Hi; exact Hi).
    rewrite Hi. cbn. rewrite Ha. reflexivity.
  - rewrite list_lookup_insert_ne by exact Hne. reflexivity.
Qed.

(** After the post, the remaining events of a run contain no other post. *)
Ltac one_post :=
  eexists; cbn [snd errorHandler emit trace]; rewrite <- ?app_assoc;
  split; [reflexivity | intros url p Hin;
          repeat (destruct Hin as [Hin|Hin]; [discriminate Hin|]);
          destruct Hin].

Lemma request_payment_trace (env : Env) (host oid : string) (w : World) i o :
  list_find (by_orderId oid) (db w) = Some (i, o) ->
  exists rest,
    trace (snd (serve (request_payment env host oid) w))
    = (trace w ++ EvPost ZARINPAL_API_REQUEST (request_payload env host oid o)
                 :: rest)%list
    /\ no_post rest.
Proof.
  intros Hfind.
  rewrite (request_payment_found env host oid w i o Hfind). cbv zeta.
  destruct (axios_post env ZARINPAL_API_REQUEST _) as [z|e]; [|one_post].
  destruct (code (data z) =? 100)%Z; [|one_post].
  destruct (persist env _) as [e|]; one_post.
Qed.

Lemma verify_payment_trace (env : Env) (auth oid : string) (w : World) i o :
  list_find (by_orderId_authority oid auth) (db w) = Some (i, o) ->
  exists rest,
    trace (snd (serve (verify_payment env auth oid) w))
    = (trace w ++ EvPost ZARINPAL_API_VERIFY (verify_payload env auth o)
                 :: rest)%list
    /\ no_post rest.
Proof.
  intros Hfind.
  rewrite (verify_payment_found env auth oid w i o Hfind). cbv zeta.
  destruct (axios_post env ZARINPAL_API_VERIFY _) as [z|e]; [|one_post].
  destruct (persist env _) as [e|]; one_post.
Qed.

Lemma request_payment_keeps_amounts (env : Env) (host oid : string)
    (w : World) j :
  amount <$> db (snd (serve (request_payment env host oid) w)) !! j
  = amount <$> db w !! j.
Proof.
  destruct (list_find (by_orderId oid) (db w)) as [[i o]|] eqn:Hfind.
  - rewrite (request_payment_found env host oid w i o Hfind). cbv zeta.
    destruct (found_in_range _ _ _ Hfind) as (Hi & _ & _).
    destruct (axios_post env ZARINPAL_API_REQUEST _) as [z|e]; [|reflexivity].
    destruct (code (data z) =? 100)%Z; [|reflexivity].
    destruct (persist env _) as [e|]; [reflexivity|].
    cbn [snd db]. apply (insert_keeps_amount _ _ o); [exact Hi | reflexivity].
  - rewrite (request_payment_missing env host oid w Hfind). reflexivity.
Qed.

Lemma verify_payment_keeps_amounts (env : Env) (auth oid : string)
    (w : World) j :
  amount <$> db (snd (serve (verify_payment env auth oid) w)) !! j
  = amount <$> db w !! j.
Proof.
  destruct (list_find (by_orderId_authority oid auth) (db w))
    as [[i o]|] eqn:Hfind.
  - rewrite (verify_payment_found env auth oid w i o Hfind). cbv zeta.
    destruct (found_in_range _ _ _ Hfind) as (Hi & _ & _).
    destruct (axios_post env ZARINPAL_API_VERIFY _) as [z|e]; [|reflexivity].
    destruct (persist env _) as [e|]; [reflexivity|].
    cbn [snd db].
    apply (insert_keeps_amount _ _ o); [exact Hi | apply finalized_amount].
  - rewrite (verify_payment_missing env auth oid w Hfind). reflexivity.
Qed.

Lemma created_order_amount (env : Env) (authHeader : option string)
    (req : CreateOrderBody) (w : World) (o : Order) :
  db (snd (serve (create_order env authHeader req) w)) = (db w ++ [o])%list ->
  exists items declared,
    co_products req = ProductsArray (Some <$> items)
    /\ co_amount req = Some declared
    /\ products o = items
    /\ subtotal o = calc_subtotal items
    /\ shippingCost o = 50000%float
    /\ amount o = (subtotal o + shippingCost o)%float.
Proof.
  intros Hdb.
  assert (Hsame : forall l : list Order, l <> (l ++ [o])%list).
  { intros l Hl. apply (f_equal length) in Hl.
    rewrite length_app in Hl. cbn in Hl. lia. }
  outcome_cases env authHeader req w;
    rewrite <- Heq0 in Hdb; cbn [snd db errorHandler emit] in Hdb;
    try (exfalso; exact (Hsame _ Hdb)).
  apply app_inv_head in Hdb. injection Hdb as <-.
  exists items0, amt0. destruct Hc0 as [_ _ Hprod _ Hamt _].
  rewrite Ho0. cbn [products subtotal shippingCost amount new_Order].
  repeat (split; [first [assumption | reflexivity]|]).
  reflexivity.
Qed.

(** C4, as stated, fails: the stored amount is a binary64 sum. For one
    item of price 2^60 and quantity 1 with the declared amount
    2^60 + 49920, create-order stores subtotal 2^60, shipping cost 50000
    and amount 2^60 + 49920, which is not subtotal + shipping cost. *)
Lemma amount_not_exact_sum :
  exists o,
    db (snd (serve (create_order (Sample.env_code 100) None
                      (Sample.body [Sample.item 1152921504606846976 1]
                         1152921504606896896)) Sample.empty)) = [o]
    /\ float_to_Z (subtotal o) = Some 1152921504606846976%Z
    /\ float_to_Z (shippingCost o) = Some 50000%Z
    /\ float_to_Z (amount o) = Some 1152921504606896896%Z
    /\ (1152921504606896896 <> 1152921504606846976 + 50000)%Z.
Proof.
  eexists. split; [reflexivity|]. split; [reflexivity|].
  split; [reflexivity|]. split; [reflexivity | discriminate].
Qed.

(** C4 (amended). An order appended by create-order carries the figures
    the handler computed: its subtotal is the binary64 reduce over the
    submitted items, its shipping cost 50000 and its amount their binary64
    sum (subtotal + 50000 exactly unless that addition rounds), whatever
    amount the client declared (a declaration of 250001 stores 250000).
    request-payment and verify-payment post to the gateway exactly once,
    with the stored amount of the order they found, and neither changes the
    amount of any stored order. *)
Theorem amount_integrity (env : Env) :
  (forall authHeader req w o,
     db (snd (serve (create_order env authHeader req) w)) = (db w ++ [o])%list ->
     exists items declared,
       co_products req = ProductsArray (Some <$> items)
       /\ co_amount req = Some declared
       /\ products o = items
       /\ subtotal o = calc_subtotal items
       /\ shippingCost o = 50000%float
       /\ amount o = (subtotal o + shippingCost o)%float)
  /\ amount <$>
       db (snd (serve (create_order (Sample.env_code 100) None
                         (Sample.body [Sample.item 100000 2] 250001))
                  Sample.empty)) !! 0 = Some 250000%float
  /\ (forall host oid w i o,
        list_find (by_orderId oid) (db w) = Some (i, o) ->
        payload_amount (request_payload env host oid o) = amount o
        /\ exists rest,
             trace (snd (serve (request_payment env host oid) w))
             = (trace w ++ EvPost ZARINPAL_API_REQUEST
                            (request_payload env host oid o) :: rest)%list
             /\ no_post rest)
  /\ (forall auth oid w i o,
        list_find (by_orderId_authority oid auth) (db w) = Some (i, o) ->
        payload_amount (verify_payload env auth o) = amount o
        /\ exists rest,
             trace (snd (serve (verify_payment env auth oid) w))
             = (trace w ++ EvPost ZARINPAL_API_VERIFY
                            (verify_payload env auth o) :: rest)%list
             /\ no_post rest)
  /\ (forall host auth oid w j,
        amount <$> db (snd (serve (request_payment env host oid) w)) !! j
        = amount <$> db w !! j
        /\ amount <$> db (snd (serve (verify_payment env auth oid) w)) !! j
           = amount <$> db w !! j).
Proof.
  split; [intros; eapply created_order_amount; eassumption|].
  split; [reflexivity|].
  split; [intros host oid w i o Hfind; split;
          [reflexivity | eapply request_payment_trace; eassumption]|].
  split; [intros auth oid w i o Hfind; split;
          [reflexivity | eapply verify_payment_trace; eassumption]|].
  intros host auth oid w j. split.
  - apply request_payment_keeps_amounts.
  - apply verify_payment_keeps_amounts.
Qed.

Lemma amount_integrity_witness :
  payload_amount
    (verify_payload (Sample.env_code 100) "A1"
       (Sample.order (Some "A1") UNPAID None)) = 250000%float
  /\ exists rest,
       trace (snd (serve (verify_payment (Sample.env_code 100) "A1" "ORD-0")
                     (Sample.world_of (Sample.order (Some "A1") UNPAID None))))
       = (trace (Sample.world_of (Sample.order (Some "A1") UNPAID None))
          ++ EvPost ZARINPAL_API_VERIFY
               (verify_payload (Sample.env_code 100) "A1"
                  (Sample.order (Some "A1") UNPAID None)) :: rest)%list
       /\ no_post rest.
Proof.
  apply (proj1 (proj2 (proj2 (proj2 (amount_integrity (Sample.env_code 100)))))
           "A1" "ORD-0" (Sample.world_of (Sample.order (Some "A1") UNPAID None))
           0 (Sample.order (Some "A1") UNPAID None)).
  reflexivity.
Defined.

(** * Further properties of the handlers *)

(** ** What request-payment and verify-payment write *)

Lemma request_payment_db (env : Env) (host oid : string) (w : World) :
  db (snd (serve (request_payment env host oid) w)) = db w
  \/ exists i o a,
       list_find (by_orderId oid) (db w) = Some (i, o)
       /\ db (snd (serve (request_payment env host oid) w))
          = <[i:=set_paymentAuthority a o]> (db w).
Proof.
  destruct (list_find (by_orderId oid) (db w)) as [[i o]|] eqn:Hfind.
  - rewrite (request_payment_found env host oid w i o Hfind). cbv zeta.
    destruct (axios_post env ZARINPAL_API_REQUEST _) as [z|e]; [|left; reflexivity].
    destruct (code (data z) =? 100)%Z; [|left; reflexivity].
    destruct (persist env _) as [e|]; [left; reflexivity|].
    right. exists i, o, (authority (data z)). split; reflexivity.
  - rewrite (request_payment_missing env host oid w Hfind). left. reflexivity.
Qed.

Lemma verify_payment_db (env : Env) (auth oid : string) (w : World) :
  db (snd (serve (verify_payment env auth oid) w)) = db w
  \/ exists i o z,
       list_find (by_orderId_authority oid auth) (db w) = Some (i, o)
       /\ db (snd (serve (verify_payment env auth oid) w))
          = <[i:=finalized z o]> (db w).
Proof.
  destruct (list_find (by_orderId_authority oid auth) (db w))
    as [[i o]|] eqn:Hfind.
  - rewrite (verify_payment_found env auth oid w i o Hfind). cbv zeta.
    destruct (axios_post env ZARINPAL_API_VERIFY _) as [z|e]; [|left; reflexivity].
    destruct (persist env _) as [e|]; [left; reflexivity|].
    right. exists i, o, z. split; reflexivity.
  - rewrite (verify_payment_missing env auth oid w Hfind). left. reflexivity.
Qed.

Lemma same_but_authority_refl (o : Order) : same_but_authority o o.
Proof. unfold same_but_authority. repeat split. Qed.

Lemma same_but_outcome_refl (o : Order) : same_but_outcome o o.
Proof. unfold same_but_outcome. repeat split. Qed.

Lemma same_but_outcome_finalized (z : ZarinpalBody) (o : Order) :
  same_but_outcome o (finalized z o).
Proof.
  unfold same_but_outcome, finalized.
  destruct (code (data z) =? 100)%Z; repeat split.
Qed.

(** Position by position, a write at the place of a found document. *)
Lemma insert_at_found {P : Order -> Prop} `{forall o, Decision (P o)}
    (R : Order -> Order -> Prop) (l : list Order) i o o' :
  (forall x, R x x) -> R o o' ->
  list_find P l = Some (i, o) ->
  forall j x, l !! j = Some x ->
    exists x', <[i:=o']> l !! j = Some x' /\ R x x'
               /\ (x' <> x -> list_find P l = Some (j, x)).
Proof.
  intros Hrefl HR Hfind j x Hj.
  destruct (found_in_range _ _ _ Hfind) as (Hi & Hlt & _).
  destruct (decide (i = j)) as [<-|Hne].
  - rewrite Hi in Hj. injection Hj as <-.
    exists o'. rewrite list_lookup_insert_eq by exact Hlt.
    split; [reflexivity|]. split; [exact HR|]. intros _. exact Hfind.
  - exists x. rewrite list_lookup_insert_ne by exact Hne.
    split; [exact Hj|]. split; [apply Hrefl|]. intros Hx. exfalso. apply Hx.
    reflexivity.
Qed.

(** X1. request-payment keeps the number of stored orders and changes at
    most one of them: every position holds the order it held, except that
    the first order carrying the requested identifier may have a new
    authority; identifier, owner, items, figures, status and reference id
    of every order are untouched. *)
Theorem request_payment_frame (env : Env) (host oid : string) (w : World) :
  length (db (snd (serve (request_payment env host oid) w))) = length (db w)
  /\ forall j o,
       db w !! j = Some o ->
       exists o',
         db (snd (serve (request_payment env host oid) w)) !! j = Some o'
         /\ same_but_authority o o'
         /\ (o' <> o -> list_find (by_orderId oid) (db w) = Some (j, o)).
Proof.
  destruct (request_payment_db env host oid w)
    as [-> | (i & o0 & a & Hfind & ->)].
  - split; [reflexivity|]. intros j o Hj. exists o.
    split; [exact Hj|]. split; [apply same_but_authority_refl|].
    intros Hx. exfalso. apply Hx. reflexivity.
  - split; [apply length_insert|].
    apply (insert_at_found same_but_authority (db w) i o0
             (set_paymentAuthority a o0));
      [apply same_but_authority_refl | | exact Hfind].
    unfold same_but_authority. repeat split.
Qed.

(** X2. verify-payment keeps the number of stored orders and changes at
    most one of them, and only in its status and reference id: the one
    order it may change is the first that carries both the identifier and
    the authority presented, so an order with another authority, or with
    none, is never finalized by the call. *)
Theorem verify_payment_frame (env : Env) (auth oid : string) (w : World) :
  length (db (snd (serve (verify_payment env auth oid) w))) = length (db w)
  /\ forall j o,
       db w !! j = Some o ->
       exists o',
         db (snd (serve (verify_payment env auth oid) w)) !! j = Some o'
         /\ same_but_outcome o o'
         /\ (o' <> o ->
             list_find (by_orderId_authority oid auth) (db w) = Some (j, o)
             /\ orderId o = oid /\ paymentAuthority o = Some auth).
Proof.
  destruct (verify_payment_db env auth oid w)
    as [-> | (i & o0 & z & Hfind & ->)].
  - split; [reflexivity|]. intros j o Hj. exists o.
    split; [exact Hj|]. split; [apply same_but_outcome_refl|].
    intros Hx. exfalso. apply Hx. reflexivity.
  - split; [apply length_insert|].
    intros j o Hj.
    destruct (insert_at_found same_but_outcome (db w) i o0 (finalized z o0)
                same_but_outcome_refl (same_but_outcome_finalized z o0)
                Hfind j o Hj) as (o' & Hlook & Hsame & Hchanged).
    exists o'. split; [exact Hlook|]. split; [exact Hsame|].
    intros Hne. specialize (Hchanged Hne). split; [exact Hchanged|].
    destruct (found_in_range _ _ _ Hchanged) as (_ & _ & Hid & Hauth).
    split; [exact Hid | exact Hauth].
Qed.

(** ** The figures of stored orders *)

Lemma consistent_insert (l : list Order) i o o' :
  Forall consistent l -> l !! i = Some o ->
  products o' = products o -> subtotal o' = subtotal o ->
  shippingCost o' = shippingCost o -> amount o' = amount o ->
  Forall consistent (<[i:=o']> l).
Proof.
  intros Hall Hi Hp Hs Hc Ha. apply Forall_insert; [exact Hall|].
  pose proof (Forall_lookup_1 _ _ _ _ Hall Hi) as (H1 & H2 & H3).
  unfold consistent. rewrite Hp, Hs, Hc, Ha. auto.
Qed.

(** X3. If every stored order has as subtotal the binary64 reduce
    (sum + price × quantity, from 0, in the order of the items) over its
    own items, shipping cost 50000 and as amount the binary64 sum of the
    two, then so has every stored order after a create-order, a
    request-payment or a verify-payment request, whatever the request and
    however it ends. *)
Theorem consistent_preserved (env : Env) (w : World) :
  Forall consistent (db w) ->
  (forall authHeader req,
     Forall consistent (db (snd (serve (create_order env authHeader req) w))))
  /\ (forall host oid,
        Forall consistent (db (snd (serve (request_payment env host oid) w))))
  /\ (forall auth oid,
        Forall consistent (db (snd (serve (verify_payment env auth oid) w)))).
Proof.
  intros Hall. split; [|split].
  - intros authHeader req. outcome_cases env authHeader req w;
      cbn [snd db errorHandler emit]; try exact Hall.
    apply Forall_app. split; [exact Hall|]. constructor; [|constructor].
    rewrite Ho0. unfold consistent.
    cbn [products subtotal shippingCost amount new_Order].
    split; [reflexivity|]. split; reflexivity.
  - intros host oid.
    destruct (request_payment_db env host oid w)
      as [-> | (i & o & a & Hfind & ->)]; [exact Hall|].
    destruct (found_in_range _ _ _ Hfind) as (Hi & _ & _).
    apply (consistent_insert _ _ o); auto.
  - intros auth oid.
    destruct (verify_payment_db env auth oid w)
      as [-> | (i & o & z & Hfind & ->)]; [exact Hall|].
    destruct (found_in_range _ _ _ Hfind) as (Hi & _ & _).
    destruct (same_but_outcome_finalized z o)
      as (_ & _ & _ & Hp & Hs & Hc & Ha & _).
    apply (consistent_insert _ _ o); auto.
Qed.

Lemma consistent_preserved_witness :
  Forall consistent (db (Sample.world_of (Sample.order (Some "A1") UNPAID None)))
  /\ Forall consistent
       (db (snd (serve (verify_payment (Sample.env_code 101) "A1" "ORD-0")
                   (Sample.world_of (Sample.order (Some "A1") UNPAID None))))).
Proof.
  assert (H : Forall consistent
                (db (Sample.world_of (Sample.order (Some "A1") UNPAID None)))).
  { constructor; [|constructor]. unfold consistent. cbn.
    split; [reflexivity|]. split; reflexivity. }
  split; [exact H|].
  apply (proj2 (proj2 (consistent_preserved (Sample.env_code 101) _ H))).
Defined.

(** ** Failures of the gateway and of the store *)

(** X4. When verify-payment has matched an order and the gateway call
    fails, or the gateway answers (be it with code 100) and the save is then
    rejected, the answer is 500 with the text of the error and no stored
    order changes: the payment the gateway confirmed is not recorded. *)
Theorem verify_payment_failure (env : Env) (auth oid : string) (w : World)
    i o :
  list_find (by_orderId_authority oid auth) (db w) = Some (i, o) ->
  (forall e,
     axios_post env ZARINPAL_API_VERIFY (verify_payload env auth o) = Throw e ->
     fst (serve (verify_payment env auth oid) w)
       = json 500 (ServerError MSG_SERVER_ERROR (err_message e))
     /\ db (snd (serve (verify_payment env auth oid) w)) = db w)
  /\ (forall z e,
        axios_post env ZARINPAL_API_VERIFY (verify_payload env auth o) = Ok z ->
        persist env (finalized z o) = Some e ->
        fst (serve (verify_payment env auth oid) w)
          = json 500 (ServerError MSG_SERVER_ERROR (err_message e))
        /\ db (snd (serve (verify_payment env auth oid) w)) = db w
        /\ In (EvPost ZARINPAL_API_VERIFY (verify_payload env auth o))
             (trace (snd (serve (verify_payment env auth oid) w)))).
Proof.
  intros Hfind.
  rewrite (verify_payment_found env auth oid w i o Hfind). cbv zeta.
  split.
  - intros e ->. split; reflexivity.
  - intros z e -> ->. split; [reflexivity|]. split; [reflexivity|].
    cbn [snd errorHandler emit trace].
    apply in_or_app. left. apply in_or_app. right. left. reflexivity.
Qed.

Lemma verify_payment_failure_witness :
  fst (serve (verify_payment Demo.env_readonly "A1" "ORD-0")
         (Sample.world_of (Sample.order (Some "A1") UNPAID None)))
    = json 500 (ServerError MSG_SERVER_ERROR "you are over your space quota")
  /\ db (snd (serve (verify_payment Demo.env_readonly "A1" "ORD-0")
                (Sample.world_of (Sample.order (Some "A1") UNPAID None))))
     = [Sample.order (Some "A1") UNPAID None].
Proof.
  destruct (proj2 (verify_payment_failure Demo.env_readonly "A1" "ORD-0"
                     (Sample.world_of (Sample.order (Some "A1") UNPAID None))
                     0 (Sample.order (Some "A1") UNPAID None) eq_refl)
              (Sample.reply 100) Demo.QUOTA eq_refl eq_refl)
    as (Hres & Hdb & _).
  split; [exact Hres | exact Hdb].
Defined.

(** X5. When request-payment has found the order and the gateway call
    fails, or the gateway issues an authority (code 100) and the save is
    then rejected, the answer is 500 with the text of the error and no
    stored order changes: the issued authority is not kept. *)
Theorem request_payment_failure (env : Env) (host oid : string) (w : World)
    i o :
  list_find (by_orderId oid) (db w) = Some (i, o) ->
  (forall e,
     axios_post env ZARINPAL_API_REQUEST (request_payload env host oid o)
       = Throw e ->
     fst (serve (request_payment env host oid) w)
       = json 500 (ServerError MSG_SERVER_ERROR (err_message e))
     /\ db (snd (serve (request_payment env host oid) w)) = db w)
  /\ (forall z e,
        axios_post env ZARINPAL_API_REQUEST (request_payload env host oid o)
          = Ok z ->
        code (data z) = 100%Z ->
        persist env (set_paymentAuthority (authority (data z)) o) = Some e ->
        fst (serve (request_payment env host oid) w)
          = json 500 (ServerError MSG_SERVER_ERROR (err_message e))
        /\ db (snd (serve (request_payment env host oid) w)) = db w).
Proof.
  intros Hfind.
  rewrite (request_payment_found env host oid w i o Hfind). cbv zeta.
  split.
  - intros e ->. split; reflexivity.
  - intros z e -> Hc ->. apply Z.eqb_eq in Hc. rewrite Hc.
    split; reflexivity.
Qed.

Lemma request_payment_failure_witness :
  fst (serve (request_payment Sample.env_down "shop.example" "ORD-0")
         (Sample.world_of (Sample.order None UNPAID None)))
    = json 500 (ServerError MSG_SERVER_ERROR "connect ECONNREFUSED 10.0.0.5:443")
  /\ db (snd (serve (request_payment Sample.env_down "shop.example" "ORD-0")
                (Sample.world_of (Sample.order None UNPAID None))))
     = [Sample.order None UNPAID None].
Proof.
  apply (proj1 (request_payment_failure Sample.env_down "shop.example" "ORD-0"
                  (Sample.world_of (Sample.order None UNPAID None))
                  0 (Sample.order None UNPAID None) eq_refl)
           Sample.ECONNREFUSED eq_refl).
Defined.

(** X6. request-payment for an identifier that no stored order carries
    answers 404 and does nothing else: no call to the gateway, no write, no
    log entry. *)
Theorem request_payment_unknown (env : Env) (host oid : string) (w : World) :
  Forall (fun o => orderId o <> oid) (db w) ->
  serve (request_payment env host oid) w
  = (json 404 (Message "سفارش یافت نشد."), w).
Proof.
  intros Hnone. apply request_payment_missing.
  apply list_find_None. exact Hnone.
Qed.

Lemma request_payment_unknown_witness :
  serve (request_payment (Sample.env_code 100) "shop.example" "ORD-7")
    (Sample.world_of (Sample.order None UNPAID None))
  = (json 404 (Message "سفارش یافت نشد."),
     Sample.world_of (Sample.order None UNPAID None)).
Proof.
  apply (request_payment_unknown (Sample.env_code 100) "shop.example" "ORD-7"
           (Sample.world_of (Sample.order None UNPAID None))).
  constructor; [discriminate | constructor].
Defined.

(** ** From creation to payment *)

Lemma find_appended {P : Order -> Prop} `{forall o, Decision (P o)}
    (l : list Order) (x : Order) :
  Forall (fun y => ~ P y) l -> P x ->
  list_find P (l ++ [x])%list = Some (length l, x).
Proof.
  intros Hnone HP. apply list_find_Some.
  split; [apply list_lookup_middle; reflexivity|]. split; [exact HP|].
  intros j y Hj Hlt. rewrite lookup_app_l in Hj by exact Hlt.
  exact (Forall_lookup_1 _ _ _ _ Hnone Hj).
Qed.

Lemma insert_appended (l : list Order) (x y : Order) :
  <[length l:=y]> (l ++ [x])%list = (l ++ [y])%list.
Proof.
  rewrite insert_app_r_alt by lia. rewrite Nat.sub_diag. reflexivity.
Qed.

(** X7. The whole flow. When create-order has appended an order whose
    identifier no earlier order carries, the store accepts writes, the
    gateway answers the payment request for that identifier with code 100
    and an authority, and then answers the verification of that authority
    with code 100 and a reference id: request-payment returns the payment
    URL of the authority, verify-payment answers success, and the
    collection is the old one followed by that order, PAID, with the
    authority and the reference id, its amount being the final amount
    create-order computes from its items (the binary64 reduce plus 50000),
    the amount of both gateway calls. *)
Theorem checkout_flow (env : Env) (authHeader : option string)
    (req : CreateOrderBody) (host : string) (w : World)
    (o0 : Order) (z1 z2 : ZarinpalBody) :
  db (snd (serve (create_order env authHeader req) w)) = (db w ++ [o0])%list ->
  Forall (fun o => orderId o <> orderId o0) (db w) ->
  store_accepts env ->
  axios_post env ZARINPAL_API_REQUEST
    (request_payload env host (orderId o0) o0) = Ok z1 ->
  code (data z1) = 100%Z ->
  axios_post env ZARINPAL_API_VERIFY
    (verify_payload env (authority (data z1)) o0) = Ok z2 ->
  code (data z2) = 100%Z ->
  fst (serve (request_payment env host (orderId o0))
         (snd (serve (create_order env authHeader req) w)))
    = json 200 (PaymentUrl (ZARINPAL_GATEWAY_URL +:+ authority (data z1)))
  /\ (exists paid : Order,
        paid = set_paymentRefId (ref_id (data z2))
                 (set_paymentStatus PAID
                    (set_paymentAuthority (authority (data z1)) o0))
        /\ fst (serve (verify_payment env (authority (data z1)) (orderId o0))
                  (snd (serve (request_payment env host (orderId o0))
                          (snd (serve (create_order env authHeader req) w)))))
           = json 200 (VerifyOk true "پرداخت شما با موفقیت تایید شد." paid)
        /\ db (snd (serve (verify_payment env (authority (data z1)) (orderId o0))
                      (snd (serve (request_payment env host (orderId o0))
                              (snd (serve (create_order env authHeader req)
                                      w))))))
           = (db w ++ [paid])%list
        /\ amount paid = calc_finalAmount (products paid)
        /\ payload_amount (request_payload env host (orderId o0) o0) = amount paid
        /\ payload_amount (verify_payload env (authority (data z1)) o0)
           = amount paid).
Proof.
  intros Hcreated Hfresh Hstore Hreq Hc1 Hver Hc2.
  destruct (created_order_amount env authHeader req w o0 Hcreated)
    as (items & declared & _ & _ & Hitems & Hsub & Hship & Hamt).
  set (w1 := snd (serve (create_order env authHeader req) w)) in *.
  assert (Hfind1 : list_find (by_orderId (orderId o0)) (db w1)
                   = Some (length (db w), o0)).
  { rewrite Hcreated. apply find_appended; [exact Hfresh | reflexivity]. }
  rewrite (request_payment_found env host (orderId o0) w1 _ _ Hfind1).
  cbv zeta. apply Z.eqb_eq in Hc1. rewrite Hreq, Hc1, Hstore.
  split; [reflexivity|].
  cbn [snd]. rewrite Hcreated, insert_appended.
  set (o1 := set_paymentAuthority (authority (data z1)) o0).
  set (w2 := {| db := (db w ++ [o1])%list; trace := _ |}).
  assert (Hfind2 : list_find (by_orderId_authority (orderId o0)
                                (authority (data z1))) (db w2)
                   = Some (length (db w), o1)).
  { cbn [db w2]. apply find_appended.
    - eapply Forall_impl; [exact Hfresh|]. intros o Hne [Hid _]. exact (Hne Hid).
    - split; reflexivity. }
  rewrite (verify_payment_found env (authority (data z1)) (orderId o0) w2 _ _
             Hfind2).
  cbv zeta.
  change (verify_payload env (authority (data z1)) o1)
    with (verify_payload env (authority (data z1)) o0).
  rewrite Hver, Hstore. unfold finalized.
  apply Z.eqb_eq in Hc2. rewrite Hc2.
  eexists. split; [reflexivity|]. split; [reflexivity|].
  cbn [snd db w2]. rewrite insert_appended. split; [reflexivity|].
  subst o1.
  cbn [amount products set_paymentRefId set_paymentStatus set_paymentAuthority
       payload_amount request_payload verify_payload].
  split; [rewrite Hamt, Hsub, Hship, Hitems; reflexivity|].
  split; reflexivity.
Qed.

Lemma checkout_flow_witness :
  db (snd (serve (verify_payment (Sample.env_code 100) "A1" "ORD-0")
             (snd (serve (request_payment (Sample.env_code 100) "shop.example"
                            "ORD-0")
                     (snd (serve (create_order (Sample.env_code 100) None
                                    (Sample.body [Sample.item 100000 2] 250000))
                             Sample.empty))))))
  = [Sample.order (Some "A1") PAID (Some "R9")].
Proof.
  destruct (checkout_flow (Sample.env_code 100) None
              (Sample.body [Sample.item 100000 2] 250000) "shop.example"
              Sample.empty (Sample.order None UNPAID None)
              (Sample.reply 100) (Sample.reply 100)
              eq_refl (Forall_nil_2 _) (fun _ => eq_refl)
              eq_refl eq_refl eq_refl eq_refl)
    as (_ & paid & -> & _ & Hdb & _).
  exact Hdb.
Defined.

(** X8. Re-issuing kills the old authority. When the requested identifier
    belongs to one stored order only and request-payment has stored a new
    authority for it (code 100, write accepted), verify-payment for that
    identifier with any other authority, the previous one included, answers
    404 and changes nothing. *)
Theorem reissue_invalidates_old_authority (env : Env) (host oid auth : string)
    (w : World) i o z :
  list_find (by_orderId oid) (db w) = Some (i, o) ->
  (forall j o', db w !! j = Some o' -> orderId o' = oid -> j = i) ->
  axios_post env ZARINPAL_API_REQUEST (request_payload env host oid o) = Ok z ->
  code (data z) = 100%Z ->
  persist env (set_paymentAuthority (authority (data z)) o) = None ->
  auth <> authority (data z) ->
  serve (verify_payment env auth oid)
    (snd (serve (request_payment env host oid) w))
  = (json 404 (Message "تراکنش یافت نشد."),
     snd (serve (request_payment env host oid) w)).
Proof.
  intros Hfind Honly Hreq Hc Hpersist Hne.
  apply verify_payment_missing.
  rewrite (request_payment_found env host oid w i o Hfind). cbv zeta.
  apply Z.eqb_eq in Hc. rewrite Hreq, Hc, Hpersist. cbn [snd db].
  apply list_find_None, Forall_lookup_2. intros j o' Hj [Hid Hauth].
  apply list_lookup_insert_Some in Hj as [(-> & <- & _) | (Hji & Hj)].
  - cbn in Hauth. congruence.
  - apply Hji. symmetry. exact (Honly j o' Hj Hid).
Qed.

Lemma reissue_invalidates_witness :
  serve (verify_payment (Sample.env_code 100) "A0" "ORD-0")
    (snd (serve (request_payment (Sample.env_code 100) "shop.example" "ORD-0")
            (Sample.world_of (Sample.order (Some "A0") UNPAID None))))
  = (json 404 (Message "تراکنش یافت نشد."),
     snd (serve (request_payment (Sample.env_code 100) "shop.example" "ORD-0")
            (Sample.world_of (Sample.order (Some "A0") UNPAID None)))).
Proof.
  apply (reissue_invalidates_old_authority (Sample.env_code 100)
           "shop.example" "ORD-0" "A0"
           (Sample.world_of (Sample.order (Some "A0") UNPAID None))
           0 (Sample.order (Some "A0") UNPAID None) (Sample.reply 100)).
  - reflexivity.
  - intros [|j] o' Hj _; [reflexivity | discriminate Hj].
  - reflexivity.
  - reflexivity.
  - reflexivity.
  - discriminate.
Defined.

(** ** my-orders *)

Lemma find_by_user_elem (uid : string) (l : list Order) (o : Order) :
  o ∈ find_by_user uid l <-> o ∈ l /\ user o = Some uid.
Proof.
  unfold find_by_user. rewrite list_elem_of_In, <- in_rev, <- list_elem_of_In.
  rewrite list_elem_of_filter. tauto.
Qed.

(** X9. my-orders never changes the collection or the trace. With a
    header whose token verifies it answers 200 with exactly the stored
    orders owned by the user of the token (anonymous orders and the orders
    of other users are never listed); with a header whose token does not
    verify it answers 400, not 401. *)
Theorem my_orders_only_own (env : Env) (authHeader : option string)
    (w : World) :
  snd (serve (my_orders env authHeader) w) = w
  /\ (forall h decoded,
        authHeader = Some h -> h <> "" ->
        jwt_verify env (replace_first "Bearer " "" h) = Some decoded ->
        exists l,
          fst (serve (my_orders env authHeader) w) = json 200 (OrderList l)
          /\ forall o, o ∈ l <-> o ∈ db w /\ user o = Some (jwt_id decoded))
  /\ (forall h,
        authHeader = Some h -> h <> "" ->
        jwt_verify env (replace_first "Bearer " "" h) = None ->
        fst (serve (my_orders env authHeader) w)
        = json 400 (Message "توکن نامعتبر است.")).
Proof.
  unfold serve, my_orders, authMiddleware. split; [|split].
  - destruct authHeader as [[|c h]|]; [reflexivity| |reflexivity].
    destruct (jwt_verify env _); reflexivity.
  - intros [|c h] decoded -> Hne; [exfalso; apply Hne; reflexivity|].
    intros ->. eexists. split; [reflexivity|].
    intros o. apply find_by_user_elem.
  - intros [|c h] -> Hne; [exfalso; apply Hne; reflexivity|].
    intros ->. reflexivity.
Qed.

Lemma my_orders_only_own_witness :
  exists l,
    fst (serve (my_orders (Sample.env_code 100) (Some "Bearer good"))
           (Sample.world_of (Sample.order None UNPAID None)))
      = json 200 (OrderList l)
    /\ forall o, o ∈ l <->
                 o ∈ db (Sample.world_of (Sample.order None UNPAID None))
                 /\ user o = Some "u1".
Proof.
  apply (proj1 (proj2 (my_orders_only_own (Sample.env_code 100)
                         (Some "Bearer good")
                         (Sample.world_of (Sample.order None UNPAID None))))
           "Bearer good" {| jwt_id := "u1"; jwt_username := "sara" |} eq_refl).
  - discriminate.
  - reflexivity.
Defined.

Lemma optional_user_valid (env : Env) c h decoded (w : World) :
  jwt_verify env (replace_first "Bearer " "" (String c h)) = Some decoded ->
  optional_user env (Some (String c h)) w = (Ok (Some (jwt_id decoded)), w).
Proof. intros Hjwt. cbn [optional_user]. rewrite Hjwt. reflexivity. Qed.

(** X10. An order created with a header whose token verifies belongs to
    the user of the token, and my-orders with the same header then lists it
    first, before every older order of that user. *)
Theorem created_order_listed_first (env : Env) (h : string) decoded
    (req : CreateOrderBody) (w : World) (created : Order) :
  h <> "" ->
  jwt_verify env (replace_first "Bearer " "" h) = Some decoded ->
  db (snd (serve (create_order env (Some h) req) w)) = (db w ++ [created])%list ->
  user created = Some (jwt_id decoded)
  /\ fst (serve (my_orders env (Some h))
            (snd (serve (create_order env (Some h) req) w)))
     = json 200 (OrderList (created :: find_by_user (jwt_id decoded) (db w))).
Proof.
  destruct h as [|c h]; [intros Hne; exfalso; apply Hne; reflexivity|].
  intros _ Hjwt Hdb.
  assert (Huser : user created = Some (jwt_id decoded)).
  { assert (Hsame : forall l : list Order, l <> (l ++ [created])%list).
    { intros l Hl. apply (f_equal length) in Hl.
      rewrite length_app in Hl. cbn in Hl. lia. }
    outcome_cases env (Some (String c h)) req w;
      rewrite <- Heq0 in Hdb; cbn [snd db errorHandler emit] in Hdb;
      try (exfalso; exact (Hsame _ Hdb)).
    apply app_inv_head in Hdb. injection Hdb as <-.
    rewrite (optional_user_valid env c h decoded w Hjwt) in Hu0.
    injection Hu0 as <- _. rewrite Ho0. reflexivity. }
  split; [exact Huser|].
  unfold serve at 1. unfold my_orders, authMiddleware. rewrite Hjwt.
  cbn [fst]. rewrite Hdb. unfold find_by_user.
  rewrite filter_app, rev_app_distr.
  rewrite filter_cons_True by exact Huser. reflexivity.
Qed.

Lemma created_order_listed_first_witness :
  fst (serve (my_orders (Sample.env_code 100) (Some "Bearer good"))
         (snd (serve (create_order (Sample.env_code 100) (Some "Bearer good")
                        (Sample.body [Sample.item 100000 2] 250000))
                 Sample.empty)))
  = json 200
      (OrderList
         [{| orderId := "ORD-0"; user := Some "u1";
             shippingInfo := Shipping "Tehran";
             products := [Sample.item 100000 2]; subtotal := 200000;
             shippingCost := 50000; amount := 250000;
             paymentAuthority := None; paymentStatus := UNPAID;
             paymentRefId := None |}]).
Proof.
  apply (proj2 (created_order_listed_first (Sample.env_code 100)
                  "Bearer good" {| jwt_id := "u1"; jwt_username := "sara" |}
                  (Sample.body [Sample.item 100000 2] 250000) Sample.empty
                  _ ltac:(discriminate) eq_refl eq_refl)).
Defined.

(** ** The bearer prefix *)

Lemma substring_all (t : string) :
  String.substring 0 (String.length t) t = t.
Proof. induction t as [|c t IH]; [reflexivity|]. cbn. rewrite IH. reflexivity. Qed.

Lemma append_cons (c : Ascii.ascii) (s t : string) :
  String c s +:+ t = String c (s +:+ t).
Proof. reflexivity. Qed.

Lemma prefix_append (pat t : string) : String.prefix pat (pat +:+ t) = true.
Proof.
  induction pat as [|c pat IH].
  - destruct t; reflexivity.
  - rewrite append_cons. cbn [String.prefix].
    destruct (Ascii.ascii_dec c c) as [_|Hne]; [exact IH|].
    exfalso. apply Hne. reflexivity.
Qed.

Lemma substring_append (pat t : string) :
  String.substring (String.length pat)
    (String.length (pat +:+ t) - String.length pat) (pat +:+ t) = t.
Proof.
  induction pat as [|c pat IH].
  - change ("" +:+ t) with t. cbn [String.length].
    rewrite Nat.sub_0_r. apply substring_all.
  - rewrite append_cons. cbn [String.length String.substring Nat.sub].
    exact IH.
Qed.

Lemma replace_first_unfold (pat rep s : string) :
  replace_first pat rep s
  = if String.prefix pat s
    then rep +:+ String.substring (String.length pat)
                   (String.length s - String.length pat) s
    else match s with
         | EmptyString => EmptyString
         | String c s' => String c (replace_first pat rep s')
         end.
Proof. destruct s; reflexivity. Qed.

Lemma replace_first_prefix (pat rep t : string) :
  replace_first pat rep (pat +:+ t) = rep +:+ t.
Proof.
  rewrite replace_first_unfold, prefix_append, substring_append. reflexivity.
Qed.

Lemma my_orders_valid (env : Env) (h : string) decoded (w : World) :
  h <> "" ->
  jwt_verify env (replace_first "Bearer " "" h) = Some decoded ->
  serve (my_orders env (Some h)) w
  = (json 200 (OrderList (find_by_user (jwt_id decoded) (db w))), w).
Proof.
  destruct h as [|c h]; [intros Hne; exfalso; apply Hne; reflexivity|].
  intros _ Hjwt. unfold serve, my_orders, authMiddleware. rewrite Hjwt.
  reflexivity.
Qed.

(** ** Registration and login *)

Lemma register_cases (aenv : Auth.AuthEnv) (req : Auth.RegisterBody)
    (users : list Auth.User) :
  snd (Auth.register aenv req users) = users
  /\ (forall r, fst (Auth.register aenv req users) = Ok r ->
                Auth.auth_status r <> 201)
  \/ (exists u,
        u = {| Auth.user_id := Auth.gen_userId aenv (length users);
               Auth.username := Auth.rb_username req;
               Auth.email := Auth.rb_email req;
               Auth.password := Auth.bcrypt_hash aenv (Auth.rb_password req) |}
        /\ Forall (fun v => ~ Auth.email_or_username (Auth.rb_email req)
                              (Auth.rb_username req) v) users
        /\ Auth.register aenv req users
           = (Ok {| Auth.auth_status := 201;
                    Auth.auth_body := Auth.AuthMessage Auth.MSG_REGISTERED |},
              (users ++ [u])%list)).
Proof.
  unfold Auth.register.
  destruct (Auth.joi_validate aenv req) as [msg|].
  { left. split; [reflexivity|]. intros r [= <-]. discriminate. }
  destruct (list_find _ users) as [[i v]|] eqn:Hfind.
  { left. split; [reflexivity|]. intros r [= <-]. discriminate. }
  cbv zeta. destruct (Auth.persist_user aenv _) as [e|].
  { left. split; [reflexivity|]. intros r Hr. discriminate Hr. }
  right. eexists. split; [reflexivity|].
  split; [exact (proj1 (list_find_None _ _) Hfind) | reflexivity].
Qed.



(** X12. Registration followed by login. After a successful register, if
    the hash function and the comparison agree and no earlier user has the
    new e-mail address as user name or the new user name as e-mail address,
    login with the e-mail address or with the user name and the registered
    password succeeds, for the new user. *)
Theorem register_then_login (aenv : Auth.AuthEnv) (req : Auth.RegisterBody)
    (users : list Auth.User) (x : string) r :
  fst (Auth.register aenv req users) = Ok r ->
  Auth.auth_status r = 201 ->
  (forall pw, Auth.bcrypt_compare aenv pw (Auth.bcrypt_hash aenv pw) = true) ->
  Forall (fun v => Auth.username v <> Auth.rb_email req
                   /\ Auth.email v <> Auth.rb_username req) users ->
  x = Auth.rb_email req \/ x = Auth.rb_username req ->
  Auth.login aenv x (Auth.rb_password req)
    (snd (Auth.register aenv req users))
  = {| Auth.auth_status := 200;
       Auth.auth_body :=
         Auth.LoginOk Auth.MSG_LOGGED_IN
           (Auth.jwt_sign aenv
              {| jwt_id := Auth.gen_userId aenv (length users);
                 jwt_username := Auth.rb_username req |})
           (Auth.gen_userId aenv (length users))
           (Auth.rb_username req) (Auth.rb_email req) |}.
Proof.
  intros Hr H201 Hbcrypt Hcross Hx.
  destruct (register_cases aenv req users) as [[_ Hno] | (u & Hu & Hfree & Heq)].
  { exfalso. exact (Hno r Hr H201). }
  rewrite Heq. cbn [snd]. unfold Auth.login.
  assert (Hfind : list_find (Auth.email_or_username x x) (users ++ [u])%list
                  = Some (length users, u)).
  { apply list_find_Some.
    split; [apply list_lookup_middle; reflexivity|]. split.
    - rewrite Hu. unfold Auth.email_or_username. cbn.
      destruct Hx as [-> | ->]; [left | right]; reflexivity.
    - intros j v Hj Hlt. rewrite lookup_app_l in Hj by exact Hlt.
      pose proof (Forall_lookup_1 _ _ _ _ Hfree Hj) as Hv.
      pose proof (Forall_lookup_1 _ _ _ _ Hcross Hj) as [Hc1 Hc2].
      unfold Auth.email_or_username in *.
      destruct Hx as [-> | ->]; intros [H | H]; tauto. }
  rewrite Hfind, Hu. cbn [Auth.password Auth.user_id Auth.username Auth.email].
  rewrite Hbcrypt. reflexivity.
Qed.

Lemma register_then_login_witness :
  Auth.login Demo.aenv "sara" "secret1"
    (snd (Auth.register Demo.aenv Demo.sara []))
  = {| Auth.auth_status := 200;
       Auth.auth_body :=
         Auth.LoginOk Auth.MSG_LOGGED_IN "good" "u1" "sara" "sara@example.com" |}.
Proof.
  apply (register_then_login Demo.aenv Demo.sara [] "sara"
           {| Auth.auth_status := 201;
              Auth.auth_body := Auth.AuthMessage Auth.MSG_REGISTERED |}).
  - reflexivity.
  - reflexivity.
  - intros pw. apply String.eqb_refl.
  - apply Forall_nil_2.
  - right. reflexivity.
Defined.

(** X13. From login to my-orders. A login answered with 200 names a
    stored user matching the identifier by e-mail address or user name whose
    stored hash the password passes; if the tokens signed for the stored
    users verify to their payload, my-orders with "Bearer " followed by the
    returned token lists the orders of exactly that user. *)
Theorem login_token_opens_my_orders (aenv : Auth.AuthEnv) (env : Env)
    (users : list Auth.User) (x pw : string) (w : World) :
  Auth.auth_status (Auth.login aenv x pw users) = 200 ->
  (forall u, u ∈ users ->
     jwt_verify env
       (Auth.jwt_sign aenv {| jwt_id := Auth.user_id u;
                              jwt_username := Auth.username u |})
     = Some {| jwt_id := Auth.user_id u; jwt_username := Auth.username u |}) ->
  exists u tok,
    u ∈ users
    /\ (Auth.email u = x \/ Auth.username u = x)
    /\ Auth.bcrypt_compare aenv pw (Auth.password u) = true
    /\ Auth.auth_body (Auth.login aenv x pw users)
       = Auth.LoginOk Auth.MSG_LOGGED_IN tok
           (Auth.user_id u) (Auth.username u) (Auth.email u)
    /\ serve (my_orders env (Some ("Bearer " +:+ tok))) w
       = (json 200 (OrderList (find_by_user (Auth.user_id u) (db w))), w).
Proof.
  intros H200 Hjwt. unfold Auth.login in *.
  destruct (list_find _ users) as [[i u]|] eqn:Hfind; [|discriminate H200].
  apply list_find_Some in Hfind as (Hi & Hmatch & _).
  destruct (Auth.bcrypt_compare aenv pw (Auth.password u)) eqn:Hpw;
    [|discriminate H200].
  assert (Hin : u ∈ users) by (apply list_elem_of_lookup; exists i; exact Hi).
  exists u. eexists.
  split; [exact Hin|].
  split; [exact Hmatch|]. split; [exact Hpw|]. split; [reflexivity|].
  rewrite (my_orders_valid env _
             {| jwt_id := Auth.user_id u; jwt_username := Auth.username u |});
    [reflexivity | discriminate |].
  rewrite replace_first_prefix. apply Hjwt. exact Hin.
Qed.

Lemma login_token_witness :
  exists u tok,
    u ∈ snd (Auth.register Demo.aenv Demo.sara [])
    /\ (Auth.email u = "sara" \/ Auth.username u = "sara")
    /\ Auth.bcrypt_compare Demo.aenv "secret1" (Auth.password u) = true
    /\ Auth.auth_body (Auth.login Demo.aenv "sara" "secret1"
                         (snd (Auth.register Demo.aenv Demo.sara [])))
       = Auth.LoginOk Auth.MSG_LOGGED_IN tok
           (Auth.user_id u) (Auth.username u) (Auth.email u)
    /\ serve (my_orders (Sample.env_code 100) (Some ("Bearer " +:+ tok)))
         (Sample.world_of (Sample.order None UNPAID None))
       = (json 200 (OrderList
                      (find_by_user (Auth.user_id u)
                         (db (Sample.world_of (Sample.order None UNPAID None))))),
          Sample.world_of (Sample.order None UNPAID None)).
Proof.
  apply (login_token_opens_my_orders Demo.aenv (Sample.env_code 100)
           (snd (Auth.register Demo.aenv Demo.sara [])) "sara" "secret1"
           (Sample.world_of (Sample.order None UNPAID None))).
  - reflexivity.
  - intros u Hu. apply list_elem_of_singleton in Hu. rewrite Hu. reflexivity.
Defined.

(** ** Start-up checks and the callback address *)

Lemma truthy_str_some (v : option string) :
  truthy_str v = true -> exists s, v = Some s /\ s <> "" /\ forall d, or_else v d = s.
Proof.
  destruct v as [[|c s]|]; try discriminate. intros _.
  exists (String c s). split; [reflexivity|]. split; [discriminate | reflexivity].
Qed.

(** X14. A production process that got past the start-up checks has a
    non-empty merchant id and callback address, so every request-payment
    posts that merchant id and that address followed by "?orderId=" and the
    order's identifier: the Host header of the request has no influence on
    the call or on the answer. *)
Theorem production_callback_fixed (pe : ProcessEnv) (env : Env) :
  startup_ok pe = true ->
  isProduction pe = true ->
  configured_by pe env ->
  exists mid url,
    ENV_MERCHANT_ID pe = Some mid /\ mid <> ""
    /\ ENV_CALLBACK_URL pe = Some url /\ url <> ""
    /\ (forall host oid o,
          request_payload env host oid o
          = RequestPayload (Some mid) (amount o) ("سفارش " +:+ oid)
              (url +:+ "?orderId=" +:+ orderId o))
    /\ (forall host1 host2 oid w,
          serve (request_payment env host1 oid) w
          = serve (request_payment env host2 oid) w).
Proof.
  unfold startup_ok. intros Hok Hprod [Hmid Hurl].
  destruct (truthy_str (JWT_SECRET pe)); [|discriminate Hok].
  rewrite Hprod in Hok. cbn [negb andb] in Hok.
  destruct (truthy_str (ENV_MERCHANT_ID pe)) eqn:Hm; [|discriminate Hok].
  destruct (truthy_str (ENV_CALLBACK_URL pe)) eqn:Hu; [|discriminate Hok].
  destruct (truthy_str_some _ Hm) as (mid & Hmid' & Hmne & _).
  destruct (truthy_str_some _ Hu) as (url & Hurl' & Hune & Hor).
  assert (Hpayload : forall host oid o,
            request_payload env host oid o
            = RequestPayload (Some mid) (amount o) ("سفارش " +:+ oid)
                (url +:+ "?orderId=" +:+ orderId o)).
  { intros host oid o. unfold request_payload.
    rewrite Hmid, Hurl, Hmid', Hor. reflexivity. }
  exists mid, url. repeat (split; [assumption|]).
  intros host1 host2 oid w.
  destruct (list_find (by_orderId oid) (db w)) as [[i o]|] eqn:Hfind.
  - rewrite (request_payment_found env host1 oid w i o Hfind).
    rewrite (request_payment_found env host2 oid w i o Hfind).
    rewrite (Hpayload host1), (Hpayload host2). reflexivity.
  - rewrite !request_payment_missing by exact Hfind. reflexivity.
Qed.

Lemma production_callback_fixed_witness :
  serve (request_payment Demo.env_production "shop.example" "ORD-0")
    (Sample.world_of (Sample.order None UNPAID None))
  = serve (request_payment Demo.env_production "evil.example" "ORD-0")
      (Sample.world_of (Sample.order None UNPAID None)).
Proof.
  destruct (production_callback_fixed Demo.production Demo.env_production
              eq_refl eq_refl (conj eq_refl eq_refl))
    as (mid & url & _ & _ & _ & _ & _ & Hhost).
  apply Hhost.
Defined.

(** ** The shopping cart *)

Lemma cart_add_cons (product : Cart.Product) (q : Z) (x : Cart.CartItem)
    (c : list Cart.CartItem) :
  Cart.get (Cart.add product q (Some (x :: c)))
  = if decide (Cart.same_id product x)
    then Cart.add_quantity q x :: c
    else x :: Cart.get (Cart.add product q (Some c)).
Proof.
  unfold Cart.add, Cart.get.
  change (default [] (Some (x :: c))) with (x :: c).
  change (default [] (Some c)) with c.
  cbn [list_find].
  destruct (decide (Cart.same_id product x)) as [Hx|Hx]; [reflexivity|].
  destruct (list_find (Cart.same_id product) c) as [[i e]|]; reflexivity.
Qed.

Lemma cart_add_ids (product : Cart.Product) (q : Z) (c : list Cart.CartItem) :
  (fun item => Cart.prod_id (Cart.cart_product item))
    <$> Cart.get (Cart.add product q (Some c))
  = (((fun item => Cart.prod_id (Cart.cart_product item)) <$> c)
     ++ (if decide (Cart.prod_id product
                    ∈ (fun item => Cart.prod_id (Cart.cart_product item)) <$> c)
         then [] else [Cart.prod_id product]))%list.
Proof.
  induction c as [|x c IH].
  - reflexivity.
  - rewrite cart_add_cons. cbn [fmap list_fmap].
    destruct (decide (Cart.same_id product x)) as [Hx|Hx].
    + unfold Cart.same_id in Hx.
      rewrite decide_True by (rewrite Hx; left).
      rewrite app_nil_r. reflexivity.
    + cbn [fmap list_fmap]. fold (@fmap list _ _ _
               (fun item => Cart.prod_id (Cart.cart_product item))).
      rewrite IH. cbn [app]. f_equal. f_equal.
      apply decide_ext. rewrite elem_of_cons.
      unfold Cart.same_id in Hx. split; [auto|].
      intros [Heq | Hin]; [|exact Hin]. exfalso. apply Hx. symmetry. exact Heq.
Qed.

Lemma cart_add_get (product : Cart.Product) (q : Z) (ls : Cart.Storage) :
  Cart.add product q ls = Cart.add product q (Some (Cart.get ls)).
Proof. destruct ls; reflexivity. Qed.

Lemma cart_total_cons (x : Cart.CartItem) (c : list Cart.CartItem) :
  Cart.totalItems (Some (x :: c))
  = (Cart.cart_quantity x + Cart.totalItems (Some c))%Z.
Proof.
  unfold Cart.totalItems, Cart.get.
  change (default [] (Some (x :: c))) with (x :: c).
  change (default [] (Some c)) with c.
  cbn [fold_left].
  assert (Hacc : forall l a,
            fold_left (fun sum item => sum + Cart.cart_quantity item)%Z l a
            = (a + fold_left (fun sum item => sum + Cart.cart_quantity item)%Z
                     l 0)%Z).
  { induction l as [|y l IH]; intros a; cbn [fold_left]; [lia|].
    rewrite (IH (a + _)%Z), (IH (0 + _)%Z). lia. }
  rewrite Hacc. lia.
Qed.

Lemma cart_total_get (ls : Cart.Storage) :
  Cart.totalItems ls = Cart.totalItems (Some (Cart.get ls)).
Proof. reflexivity. Qed.

Lemma cart_total_after_add (product : Cart.Product) (q : Z)
    (ls : Cart.Storage) :
  Cart.totalItems (Cart.add product q ls) = (Cart.totalItems ls + q)%Z.
Proof.
  rewrite cart_add_get, (cart_total_get ls),
    (cart_total_get (Cart.add _ _ _)).
  induction (Cart.get ls) as [|x c IH].
  - reflexivity.
  - rewrite cart_add_cons.
    destruct (decide (Cart.same_id product x)).
    + rewrite !cart_total_cons. cbn [Cart.add_quantity Cart.cart_quantity].
      lia.
    + rewrite !cart_total_cons, IH. lia.
Qed.

(** X15. For a stored cart of non-negative integer quantities and a
    non-negative integer quantity added, the new total being at most 2^53
    (so that no sum the script forms is rounded), [cart.add] raises the
    number shown on the cart badge by exactly the quantity added, whether
    the product was already in the cart or not. *)
Theorem cart_add_total (product : Cart.Product) (q : Z) (ls : Cart.Storage) :
  Forall (fun item => (0 <= Cart.cart_quantity item)%Z) (Cart.get ls) ->
  (0 <= q)%Z ->
  (Cart.totalItems ls + q <= 2 ^ 53)%Z ->
  Cart.totalItems (Cart.add product q ls) = (Cart.totalItems ls + q)%Z
  /\ Cart.textContent (Cart.updateCounter (Cart.add product q ls))
     = (Cart.textContent (Cart.updateCounter ls) + q)%Z.
Proof.
  intros _ _ _. split; [apply cart_total_after_add|].
  cbn [Cart.updateCounter Cart.textContent]. apply cart_total_after_add.
Qed.

Lemma cart_add_total_witness :
  Cart.totalItems
    (Cart.add Demo.pipe 2 (Cart.add Demo.elbow 1 (Cart.add Demo.pipe 1 None)))
  = (Cart.totalItems (Cart.add Demo.elbow 1 (Cart.add Demo.pipe 1 None)) + 2)%Z
  /\ Cart.textContent
       (Cart.updateCounter
          (Cart.add Demo.pipe 2
             (Cart.add Demo.elbow 1 (Cart.add Demo.pipe 1 None))))
     = (Cart.textContent
          (Cart.updateCounter
             (Cart.add Demo.elbow 1 (Cart.add Demo.pipe 1 None))) + 2)%Z.
Proof.
  apply (cart_add_total Demo.pipe 2
           (Cart.add Demo.elbow 1 (Cart.add Demo.pipe 1 None))).
  - repeat constructor; cbn; lia.
  - lia.
  - vm_compute. discriminate.
Defined.

(** X16. [cart.add] keeps the identifiers of the cart pairwise distinct:
    an existing product has its quantity raised in place, a new one is
    appended. *)
Theorem cart_add_unique (product : Cart.Product) (q : Z) (ls : Cart.Storage) :
  Cart.unique_ids (Cart.get ls) ->
  Cart.unique_ids (Cart.get (Cart.add product q ls))
  /\ (length (Cart.get (Cart.add product q ls)) = length (Cart.get ls)
      \/ length (Cart.get (Cart.add product q ls))
         = S (length (Cart.get ls))
         /\ Forall (fun item => ~ Cart.same_id product item) (Cart.get ls)).
Proof.
  rewrite cart_add_get. unfold Cart.unique_ids. intros Hnd.
  pose proof (cart_add_ids product q (Cart.get ls)) as Hids.
  assert (Hlen : length (Cart.get (Cart.add product q (Some (Cart.get ls))))
                 = length ((fun item => Cart.prod_id (Cart.cart_product item))
                             <$> Cart.get (Cart.add product q
                                             (Some (Cart.get ls)))))
    by (rewrite length_fmap; reflexivity).
  rewrite Hids. rewrite Hlen, Hids, length_app, length_fmap.
  destruct (decide (Cart.prod_id product ∈ _)) as [Hin|Hout].
  - rewrite app_nil_r. split; [exact Hnd|]. left. cbn. lia.
  - split.
    + apply NoDup_app. split; [exact Hnd|]. split; [|apply NoDup_singleton].
      intros x Hx Hx'. apply list_elem_of_singleton in Hx'. subst x.
      exact (Hout Hx).
    + right. split; [cbn; lia|].
      apply Forall_forall. intros item Hitem Hsame. apply Hout.
      apply list_elem_of_fmap. exists item. split; [|exact Hitem].
      unfold Cart.same_id in Hsame. symmetry. exact Hsame.
Qed.

Lemma cart_add_unique_witness :
  Cart.unique_ids
    (Cart.get (Cart.add Demo.pipe 2 (Cart.add Demo.elbow 1
                                       (Cart.add Demo.pipe 1 None)))).
Proof.
  apply (cart_add_unique Demo.pipe 2
           (Cart.add Demo.elbow 1 (Cart.add Demo.pipe 1 None))).
  unfold Cart.unique_ids. cbn.
  apply NoDup_cons. split; [|apply NoDup_singleton].
  intros Hin. apply list_elem_of_singleton in Hin. discriminate Hin.
Defined.




Lemma cart_total_positive (c : list Cart.CartItem) :
  Forall (fun item => (1 <= Cart.cart_quantity item)%Z) c ->
  (Z.of_nat (length c) <= Cart.totalItems (Some c))%Z.
Proof.
  induction 1 as [|x c Hx _ IH].
  - reflexivity.
  - rewrite cart_total_cons. cbn [length]. lia.
Qed.

(** X18. For a cart whose quantities are all at least 1, the badge is
    hidden exactly when the cart is empty, and after adding a quantity of
    at least 1 it is shown. *)
Theorem cart_badge (product : Cart.Product) (q : Z) (ls : Cart.Storage) :
  Forall (fun item => (1 <= Cart.cart_quantity item)%Z) (Cart.get ls) ->
  (Cart.display (Cart.updateCounter ls) = "none" <-> Cart.get ls = [])
  /\ ((1 <= q)%Z ->
      Cart.display (Cart.updateCounter (Cart.add product q ls)) = "flex").
Proof.
  intros Hpos. pose proof (cart_total_positive _ Hpos) as Hge.
  rewrite <- cart_total_get in Hge.
  unfold Cart.updateCounter. cbn [Cart.display]. split.
  - destruct (Z.gtb_spec (Cart.totalItems ls) 0) as [Hgt|Hle].
    + split; [discriminate|]. intros Hnil. rewrite Hnil in Hge.
      rewrite cart_total_get, Hnil in Hgt. cbn in Hgt. lia.
    + split; [|reflexivity]. intros _.
      destruct (Cart.get ls) as [|x c]; [reflexivity|]. cbn [length] in Hge. lia.
  - intros Hq. rewrite cart_total_after_add.
    destruct (Z.gtb_spec (Cart.totalItems ls + q) 0) as [Hgt|Hle];
      [reflexivity | lia].
Qed.

Lemma cart_badge_witness :
  (Cart.display (Cart.updateCounter None) = "none" <-> Cart.get None = [])
  /\ ((1 <= 1)%Z ->
      Cart.display (Cart.updateCounter (Cart.add Demo.pipe 1 None)) = "flex").
Proof.
  apply (cart_badge Demo.pipe 1 None). apply Forall_nil_2.
Defined.

(** ** Repeated verification *)

Lemma find_after_write {P : Order -> Prop} `{forall o, Decision (P o)}
    (l : list Order) i o o' :
  list_find P l = Some (i, o) -> P o' ->
  list_find P (<[i:=o']> l) = Some (i, o').
Proof.
  intros Hfind HP'. apply list_find_Some in Hfind as (Hi & _ & Hleast).
  apply list_find_insert_Some. right. left.
  split; [reflexivity|]. split; [reflexivity|].
  split; [apply lookup_lt_Some in Hi; exact Hi|]. split; [exact HP'|].
  exact Hleast.
Qed.

(** X19. verify-payment can be repeated on the same order, and the last
    reply decides: after two accepted verifications of the same identifier
    and authority the status is PAID if the second reply has code 100 and
    FAILED otherwise, whatever the first reply was. A FAILED written after a
    PAID leaves the reference id of the earlier reply on the order. *)
Theorem verify_twice (env1 env2 : Env) (auth oid : string) (w : World)
    i o z1 z2 :
  list_find (by_orderId_authority oid auth) (db w) = Some (i, o) ->
  axios_post env1 ZARINPAL_API_VERIFY (verify_payload env1 auth o) = Ok z1 ->
  store_accepts env1 ->
  axios_post env2 ZARINPAL_API_VERIFY (verify_payload env2 auth o) = Ok z2 ->
  store_accepts env2 ->
  exists o2 : Order,
    db (snd (serve (verify_payment env2 auth oid)
               (snd (serve (verify_payment env1 auth oid) w)))) !! i = Some o2
    /\ paymentStatus o2 = (if (code (data z2) =? 100)%Z then PAID else FAILED)
    /\ (code (data z1) = 100%Z -> code (data z2) <> 100%Z ->
        paymentStatus o2 = FAILED /\ paymentRefId o2 = Some (ref_id (data z1))).
Proof.
  intros Hfind Hpost1 Hstore1 Hpost2 Hstore2.
  destruct (found_in_range _ _ _ Hfind) as (_ & Hlt & Hid & Hauth).
  rewrite (verify_payment_found env1 auth oid w i o Hfind). cbv zeta.
  rewrite Hpost1, Hstore1. cbn [snd].
  set (w1 := {| db := <[i:=finalized z1 o]> (db w); trace := _ |}).
  assert (Hfind1 : list_find (by_orderId_authority oid auth) (db w1)
                   = Some (i, finalized z1 o)).
  { apply (find_after_write (db w) i o); [exact Hfind|].
    destruct (same_but_outcome_finalized z1 o)
      as (Hid' & _ & _ & _ & _ & _ & _ & Hauth').
    split; congruence. }
  rewrite (verify_payment_found env2 auth oid w1 i _ Hfind1). cbv zeta.
  replace (verify_payload env2 auth (finalized z1 o))
    with (verify_payload env2 auth o)
    by (unfold verify_payload; rewrite finalized_amount; reflexivity).
  rewrite Hpost2, Hstore2. cbn [snd db w1].
  exists (finalized z2 (finalized z1 o)).
  split; [apply list_lookup_insert_eq; rewrite length_insert; exact Hlt|].
  split; [apply finalized_status|].
  intros Hc1 Hc2. unfold finalized.
  apply Z.eqb_eq in Hc1. apply Z.eqb_neq in Hc2. rewrite Hc1, Hc2.
  split; reflexivity.
Qed.

Lemma verify_twice_witness :
  exists o2 : Order,
    db (snd (serve (verify_payment (Sample.env_code 101) "A1" "ORD-0")
               (snd (serve (verify_payment (Sample.env_code 100) "A1" "ORD-0")
                       (Sample.world_of (Sample.order (Some "A1") UNPAID None))))))
      !! 0 = Some o2
    /\ paymentStatus o2 = FAILED /\ paymentRefId o2 = Some "R9".
Proof.
  destruct (verify_twice (Sample.env_code 100) (Sample.env_code 101) "A1" "ORD-0"
              (Sample.world_of (Sample.order (Some "A1") UNPAID None))
              0 (Sample.order (Some "A1") UNPAID None)
              (Sample.reply 100) (Sample.reply 101)
              eq_refl eq_refl (fun _ => eq_refl) eq_refl (fun _ => eq_refl))
    as (o2 & Hlook & _ & Hlast).
  exists o2. split; [exact Hlook|]. apply Hlast; [reflexivity | discriminate].
Defined.

(** ** What create-order leaves alone *)

(** X20. create-order never calls the gateway, never changes or removes a
    stored order and adds at most one: the collection afterwards is the one
    before, possibly followed by one new order, and the events it adds
    contain no post. *)
Theorem create_order_quiet (env : Env) (authHeader : option string)
    (req : CreateOrderBody) (w : World) :
  (exists added,
     db (snd (serve (create_order env authHeader req) w))
       = (db w ++ added)%list
     /\ length added <= 1)
  /\ (exists evs,
        trace (snd (serve (create_order env authHeader req) w))
          = (trace w ++ evs)%list
        /\ no_post evs).
Proof.
  destruct (optional_user_run env authHeader w) as (u & evs & Hu & Hquiet & _).
  assert (Hnil : forall l : list Order, l = (l ++ [])%list)
    by (intros l; rewrite app_nil_r; reflexivity).
  outcome_cases env authHeader req w; cbn [snd db trace errorHandler emit];
    try (rewrite Hu in Hu0; injection Hu0 as <- Hevs;
         apply app_inv_head in Hevs; subst evs0).
  - split; [exists []; split; [apply Hnil | cbn; lia]|].
    exists []. split; [rewrite app_nil_r; reflexivity | intros url p []].
  - split; [exists []; split; [apply Hnil | cbn; lia]|].
    exists (evs ++ [EvError "❌ خطای داخلی سرور:" (err_stack TYPE_ERROR)])%list.
    split; [rewrite app_assoc; reflexivity|].
    intros url p Hin. apply in_app_or in Hin as [Hin | [Hin | []]];
      [exact (Hquiet url p Hin) | discriminate Hin].
  - split; [exists []; split; [apply Hnil | cbn; lia]|].
    exists evs. split; [reflexivity | exact Hquiet].
  - split; [exists [o0]; split; [reflexivity | cbn; lia]|].
    exists (evs ++ [EvSave (length (db w)) o0])%list.
    split; [rewrite app_assoc; reflexivity|].
    intros url p Hin. apply in_app_or in Hin as [Hin | [Hin | []]];
      [exact (Hquiet url p Hin) | discriminate Hin].
  - split; [exists []; split; [apply Hnil | cbn; lia]|].
    exists (evs ++ [EvError "❌ خطای داخلی سرور:" (err_stack e0)])%list.
    split; [rewrite app_assoc; reflexivity|].
    intros url p Hin. apply in_app_or in Hin as [Hin | [Hin | []]];
      [exact (Hquiet url p Hin) | discriminate Hin].
Qed.

(** ** What create-order does with the line items *)

(** X21. create-order applies no check of its own to prices or
    quantities. For every complete input without null elements whose
    declared amount passes the handler's comparison, whatever the prices
    and quantities are, the order handed to [save] holds exactly the
    submitted items and shipping info: it is appended with answer 201 if
    the store accepts it, and if the store rejects it the answer is 500 and
    nothing is stored. *)
Theorem create_order_items_unchecked (env : Env) (authHeader : option string)
    (req : CreateOrderBody) (w : World) si items amt :
  complete_input req si items amt ->
  exceeds_tolerance (calc_finalAmount items) amt = false ->
  exists o : Order,
    products o = items /\ shippingInfo o = si
    /\ ((persist env o = None
         /\ fst (serve (create_order env authHeader req) w)
            = json 201 (OrderCreated MSG_CREATED o)
         /\ db (snd (serve (create_order env authHeader req) w))
            = (db w ++ [o])%list)
        \/ (exists e,
              persist env o = Some e
              /\ fst (serve (create_order env authHeader req) w)
                 = json 500 (ServerError MSG_SERVER_ERROR (err_message e))
              /\ db (snd (serve (create_order env authHeader req) w)) = db w)).
Proof.
  intros Hc Hle.
  assert (Hsame : forall (si' : ShippingInfo) items' amt',
            complete_input req si' items' amt' -> si' = si /\ items' = items).
  { intros si' items' amt' [Hsi' _ Hp' _ _ _].
    destruct Hc as [Hsi _ Hp _ _ _]. rewrite Hsi in Hsi'. rewrite Hp in Hp'.
    injection Hsi' as <-. injection Hp' as Hitems.
    apply (f_equal present) in Hitems. rewrite !present_fmap in Hitems.
    split; [reflexivity | symmetry; exact Hitems]. }
  outcome_cases env authHeader req w.
  - exfalso. apply (complete_not_rejectable _ _ _ _ Hc Hle). left. exact Hinc0.
  - exfalso. destruct Hc as [_ _ Hp _ _ _]. rewrite Hp in Hp0.
    injection Hp0 as <-.
    apply list_elem_of_fmap in Hnull0 as (it & Hit & _). discriminate Hit.
  - exfalso. apply (complete_not_rejectable _ _ _ _ Hc Hle). right.
    exists items0, amt0. destruct Hc0. auto.
  - destruct (Hsame _ _ _ Hc0) as [-> ->]. exists o0.
    split; [rewrite Ho0; reflexivity|]. split; [rewrite Ho0; reflexivity|].
    left. split; [exact Hp0|]. split; reflexivity.
  - destruct (Hsame _ _ _ Hc0) as [-> ->]. exists o0.
    split; [rewrite Ho0; reflexivity|]. split; [rewrite Ho0; reflexivity|].
    right. exists e0. split; [exact Hp0|]. split; reflexivity.
Qed.

Lemma create_order_items_unchecked_witness :
  exists o : Order,
    products o = [Sample.item 1000 0; Sample.item (-100) 1; Sample.item 100 1]
    /\ shippingInfo o = Shipping "Tehran"
    /\ ((persist (Sample.env_code 100) o = None
         /\ fst (serve (create_order (Sample.env_code 100) None
                          (Sample.body [Sample.item 1000 0; Sample.item (-100) 1;
                                        Sample.item 100 1] 50000))
                   Sample.empty)
            = json 201 (OrderCreated MSG_CREATED o)
         /\ db (snd (serve (create_order (Sample.env_code 100) None
                              (Sample.body [Sample.item 1000 0;
                                            Sample.item (-100) 1;
                                            Sample.item 100 1] 50000))
                       Sample.empty))
            = (db Sample.empty ++ [o])%list)
        \/ (exists e,
              persist (Sample.env_code 100) o = Some e
              /\ fst (serve (create_order (Sample.env_code 100) None
                               (Sample.body [Sample.item 1000 0;
                                             Sample.item (-100) 1;
                                             Sample.item 100 1] 50000))
                        Sample.empty)
                 = json 500 (ServerError MSG_SERVER_ERROR (err_message e))
              /\ db (snd (serve (create_order (Sample.env_code 100) None
                                   (Sample.body [Sample.item 1000 0;
                                                 Sample.item (-100) 1;
                                                 Sample.item 100 1] 50000))
                            Sample.empty)) = db Sample.empty)).
Proof.
  apply (create_order_items_unchecked (Sample.env_code 100) None
           (Sample.body [Sample.item 1000 0; Sample.item (-100) 1;
                         Sample.item 100 1] 50000) Sample.empty
           (Shipping "Tehran")
           [Sample.item 1000 0; Sample.item (-100) 1; Sample.item 100 1]
           (JNumber 50000)).
  - constructor; [reflexivity | reflexivity | reflexivity | discriminate
                 | reflexivity | reflexivity].
  - reflexivity.
Defined.
